(** * EV charging station locator: the booking routes

    A shallow embedding of [backend/routes/bookings.js] (POST /bookings,
    PUT /bookings/:id/status, DELETE /bookings/:id) and of the admin
    override PUT /admin/bookings/:id/status, with the properties the
    specification states about them; then of the routes around them
    (GET /bookings/my-bookings, PUT /bookings/:id/power, the requireAdmin
    middleware, DELETE /admin/stations/:id, the statements of GET
    /admin/bookings, GET /stations/:id/availability) with properties read
    off the code.

    Conventions of the model.
    - An instant is the number of milliseconds since the epoch ([Z]); the
      ISO-8601 strings of the request body are read by PostgreSQL and by
      [new Date(...)] as the same instant.
    - The relational store is a record of row lists.  A transaction is a
      working copy of the tables: BEGIN opens it, COMMIT publishes it,
      ROLLBACK drops it.  Requests run one after another.
    - A handler is a function of an environment (which queries fail, does
      the socket emit throw) and of the world, in a small monad with early
      replies ([return res.status(..).json(..)]) and exceptions.
    - Money is exact: [pricing_per_hour] is a rational and [toFixed(2)]
      yields a number of hundredths; the rounding error of JavaScript
      doubles in the intermediate product is not modelled. *)

From Stdlib Require Import ZArith QArith Qround Qabs List Finite String Bool Lia Lqa.
From Stdlib Require Import Sorted Permutation Ascii DecimalString.
Import ListNotations.

Local Open Scope string_scope.
Local Open Scope list_scope.
Local Open Scope Z_scope.

(** ** JavaScript values of the request body *)

Inductive JsValue : Type :=
| JsUndefined
| JsNull
| JsBool (b : bool)
| JsNumber (n : Z)
| JsString (s : string).

(** ToBoolean: what [!v] negates. *)
Definition truthy (v : JsValue) : bool :=
  match v with
  | JsUndefined => false
  | JsNull => false
  | JsBool b => b
  | JsNumber n => negb (n =? 0)
  | JsString s => negb (s =? "")%string
  end.

(** ** Tables *)

Record Station : Type := mkStation {
  st_id : Z;
  total_slots : Z;
  pricing_per_hour : Q;
  st_status : string
}.

Record Booking : Type := mkBooking {
  b_id : Z;
  b_station_id : Z;
  b_user_id : string;
  b_slot_number : option Z;      (* NULL is [None] *)
  b_start_time : Z;
  b_end_time : Z;
  b_total_cost : Z;              (* hundredths *)
  b_status : string
}.

Record PowerLog : Type := mkPowerLog {
  pl_station_id : Z;
  pl_booking_id : Z;
  pl_power_kw : Z
}.

Record Database : Type := mkDatabase {
  stations : list Station;
  bookings : list Booking;
  power_logs : list PowerLog
}.

(** ** Replies and notifications *)

Inductive Body : Type :=
| ErrorBody (error : string)
| MessageBody (message : string)
| BookingBody (booking : Booking).

Record Response : Type := mkResponse {
  status_code : Z;
  body : Body
}.

Record Event : Type := mkEvent {
  ev_room : Z;                   (* station_<id> *)
  ev_type : string;
  ev_booking : Booking
}.

(** ** Environment and world *)

Inductive Query : Type :=
| QBegin
| QSelectStation
| QCountConflicts
| QUsedSlots
| QInsertBooking
| QCommit
| QUpdateStatus
| QInsertPowerLog.

Record Env : Type := mkEnv {
  db_fault : Query -> bool;      (* this query rejects *)
  emit_throws : bool             (* io.to(..).emit(..) throws *)
}.

Record World : Type := mkWorld {
  tables : Database;             (* committed rows *)
  txn : option Database;         (* working copy of the open transaction *)
  booking_seq : Z;               (* bookings.id sequence, never rolled back *)
  emitted : list Event
}.

(** ** The handler monad *)

Inductive Step (A : Type) : Type :=
| Next (a : A)
| Respond (r : Response)
| Throw.

Arguments Next {A} a.
Arguments Respond {A} r.
Arguments Throw {A}.

Definition Handler (A : Type) : Type := Env -> World -> Step A * World.

Definition ret {A} (a : A) : Handler A := fun _ w => (Next a, w).

Definition bind {A B} (m : Handler A) (k : A -> Handler B) : Handler B :=
  fun env w =>
    match m env w with
    | (Next a, w') => k a env w'
    | (Respond r, w') => (Respond r, w')
    | (Throw, w') => (Throw, w')
    end.

Declare Scope handler_scope.
Delimit Scope handler_scope with handler.
Notation "x <- m ;; k" := (bind m (fun x => k))
  (at level 61, m at next level, right associativity) : handler_scope.
Notation "m ;; k" := (bind m (fun _ => k))
  (at level 61, right associativity) : handler_scope.
Local Open Scope handler_scope.

(** [return res.status(code).json(payload)] *)
Definition respond {A} (code : Z) (payload : Body) : Handler A :=
  fun _ w => (Respond (mkResponse code payload), w).

(** [try { body } catch (error) { handler }] *)
Definition try_catch {A} (body handler : Handler A) : Handler A :=
  fun env w =>
    match body env w with
    | (Throw, w') => handler env w'
    | other => other
    end.

(** What the caller of the route observes: the reply, if any, and the world. *)
Definition run (h : Handler unit) (env : Env) (w : World) : option Response * World :=
  match h env w with
  | (Respond r, w') => (Some r, w')
  | (_, w') => (None, w')
  end.

(** ** Store primitives *)

(** The rows a query sees: the working copy inside a transaction. *)
Definition view (w : World) : Database :=
  match txn w with
  | Some d => d
  | None => tables w
  end.

(** A write goes to the working copy, or straight to the tables (autocommit). *)
Definition write (f : Database -> Database) (w : World) : World :=
  match txn w with
  | Some d => mkWorld (tables w) (Some (f d)) (booking_seq w) (emitted w)
  | None => mkWorld (f (tables w)) None (booking_seq w) (emitted w)
  end.

Definition query {A} (q : Query) (f : World -> A * World) : Handler A :=
  fun env w =>
    if db_fault env q then (Throw, w)
    else let (a, w') := f w in (Next a, w').

Definition begin_txn : Handler unit :=
  query QBegin (fun w =>
    (tt, mkWorld (tables w) (Some (view w)) (booking_seq w) (emitted w))).

Definition commit : Handler unit :=
  query QCommit (fun w =>
    (tt, mkWorld (view w) None (booking_seq w) (emitted w))).

(** ROLLBACK is taken not to fail; outside a transaction it does nothing. *)
Definition rollback : Handler unit :=
  fun _ w => (Next tt, mkWorld (tables w) None (booking_seq w) (emitted w)).

Definition emit (room : Z) (type : string) (b : Booking) : Handler unit :=
  fun env w =>
    if emit_throws env then (Throw, w)
    else (Next tt,
          mkWorld (tables w) (txn w) (booking_seq w)
                  (emitted w ++ [mkEvent room type b])).

(** ** SQL fragments *)

(** [x BETWEEN lo AND hi] *)
Definition between (x lo hi : Z) : bool := (lo <=? x) && (x <=? hi).

(** [status IN ('active', 'pending')] *)
Definition holds_slot (b : Booking) : bool :=
  (b_status b =? "active")%string || (b_status b =? "pending")%string.

(** The window test of the conflict count, [$2] = start, [$3] = end. *)
Definition conflict_window (start_time end_time : Z) (b : Booking) : bool :=
  between start_time (b_start_time b) (b_end_time b)
  || between end_time (b_start_time b) (b_end_time b)
  || between (b_start_time b) start_time end_time.

(** The window test of the used-slot query. *)
Definition used_window (start_time end_time : Z) (b : Booking) : bool :=
  between start_time (b_start_time b) (b_end_time b)
  || between end_time (b_start_time b) (b_end_time b).

Definition conflict_rows (station_id start_time end_time : Z) (bs : list Booking)
  : list Booking :=
  filter (fun b => (b_station_id b =? station_id) && holds_slot b
                   && conflict_window start_time end_time b) bs.

Definition used_rows (station_id start_time end_time : Z) (bs : list Booking)
  : list Booking :=
  filter (fun b => (b_station_id b =? station_id) && holds_slot b
                   && used_window start_time end_time b) bs.

Definition slot_eq_dec (x y : option Z) : {x = y} + {x <> y}.
Proof. decide equality. apply Z.eq_dec. Defined.

(** [SELECT total_slots, pricing_per_hour FROM stations WHERE id = $1 AND status = $2] *)
Definition find_station (station_id : Z) (d : Database) : list Station :=
  filter (fun s => (st_id s =? station_id) && (st_status s =? "active")%string)
         (stations d).

Definition select_station (station_id : Z) : Handler (list Station) :=
  query QSelectStation (fun w => (find_station station_id (view w), w)).

(** [SELECT COUNT( * ) ...] followed by [parseInt]. *)
Definition conflict_count (station_id start_time end_time : Z) (d : Database) : Z :=
  Z.of_nat (List.length (conflict_rows station_id start_time end_time (bookings d))).

Definition count_conflicts (station_id start_time end_time : Z) : Handler Z :=
  query QCountConflicts (fun w =>
    (conflict_count station_id start_time end_time (view w), w)).

(** [SELECT DISTINCT slot_number ...] followed by [rows.map(row => row.slot_number)]. *)
Definition used_slots (station_id start_time end_time : Z) (d : Database)
  : list (option Z) :=
  nodup slot_eq_dec
        (map b_slot_number (used_rows station_id start_time end_time (bookings d))).

Definition select_used_slots (station_id start_time end_time : Z)
  : Handler (list (option Z)) :=
  query QUsedSlots (fun w => (used_slots station_id start_time end_time (view w), w)).

(** [usedSlots.includes(i)] for a number [i]: NULL never equals it. *)
Definition includes (usedSlots : list (option Z)) (i : Z) : bool :=
  existsb (fun v => match v with Some n => n =? i | None => false end) usedSlots.

(** The values [i] takes in [for (let i = 1; i <= total_slots; i++)]. *)
Definition slot_range (total : Z) : list Z :=
  map Z.of_nat (seq 1 (Z.to_nat total)).

(** The loop body: assign the first [i] not in [usedSlots] and break;
    [assigned] is left as it was when the loop runs to its end. *)
Fixpoint scan_slots (usedSlots : list (option Z)) (range : list Z)
         (assigned : JsValue) : JsValue :=
  match range with
  | [] => assigned
  | i :: rest =>
      if negb (includes usedSlots i) then JsNumber i
      else scan_slots usedSlots rest assigned
  end.

(** Lines 82-100: the slot resolver. *)
Definition assign_slot (station_id start_time end_time total : Z)
           (slot_number : JsValue) : Handler JsValue :=
  if negb (truthy slot_number) then
    usedSlots <- select_used_slots station_id start_time end_time ;;
    ret (scan_slots usedSlots (slot_range total) slot_number)
  else ret slot_number.

(** ** Cost *)

(** [x.toFixed(2)], as hundredths: the integer [n] with [n / 100] nearest to
    [x], the larger one on a tie, on the absolute value; the sign is put back. *)
Definition toFixed2 (x : Q) : Z :=
  let n := Qfloor (Qabs x * 100 + (1 # 2))%Q in
  if Qle_bool 0 x then n else - n.

(** [(endDate - startDate) / (1000 * 60 * 60)] *)
Definition durationHours (start_time end_time : Z) : Q :=
  (inject_Z (end_time - start_time) / inject_Z (1000 * 60 * 60))%Q.

(** Lines 102-106. *)
Definition totalCost (start_time end_time : Z) (rate : Q) : Z :=
  toFixed2 (durationHours start_time end_time * rate)%Q.

(** ** POST /bookings *)

Record BookingRequest : Type := mkRequest {
  req_station_id : option Z;     (* [None]: field absent *)
  req_start_time : option Z;     (* [None]: absent or empty string *)
  req_end_time : option Z;
  req_slot_number : JsValue
}.

(** How the driver and the [slot_number] column read the parameter of the
    INSERT: NULL for undefined and null, the number itself, the value of a
    string of decimal digits; anything else is rejected by the store.  The
    table definition is not part of the sources: the column is taken to be
    an integer column wide enough for the values met. *)
Fixpoint digits_value (s : string) (acc : Z) : option Z :=
  match s with
  | EmptyString => Some acc
  | String c rest =>
      let d := Z.of_nat (Ascii.nat_of_ascii c) - 48 in
      if (0 <=? d) && (d <=? 9) then digits_value rest (10 * acc + d) else None
  end.

Definition sql_integer (v : JsValue) : option (option Z) :=
  match v with
  | JsUndefined => Some None
  | JsNull => Some None
  | JsBool _ => None
  | JsNumber n => Some (Some n)
  | JsString EmptyString => None
  | JsString s => option_map Some (digits_value s 0)
  end.

Definition add_booking (b : Booking) (d : Database) : Database :=
  mkDatabase (stations d) (bookings d ++ [b]) (power_logs d).

(** [INSERT INTO bookings (...) VALUES (...) RETURNING *] *)
Definition insert_booking (station_id : Z) (userId : string) (slot : JsValue)
           (start_time end_time cost : Z) (status : string) : Handler Booking :=
  fun env w =>
    if db_fault env QInsertBooking then (Throw, w)
    else match sql_integer slot with
         | None => (Throw, w)
         | Some sl =>
             let id := booking_seq w + 1 in
             let b := mkBooking id station_id userId sl start_time end_time cost status in
             let w1 := mkWorld (tables w) (txn w) id (emitted w) in
             (Next b, write (add_booking b) w1)
         end.

(** [router.post('/', requireAuth, ...)].  The [finally] block gives the
    connection back to the pool and touches no row; it has no counterpart
    here. *)
Definition post_booking (userId : string) (req : BookingRequest) : Handler unit :=
  try_catch
    (match req_station_id req, req_start_time req, req_end_time req with
     | Some station_id, Some start_time, Some end_time =>
         if station_id =? 0 then
           respond 400 (ErrorBody "Missing required fields")
         else
           begin_txn ;;
           rows <- select_station station_id ;;
           match rows with
           | [] =>
               rollback ;;
               respond 404 (ErrorBody "Station not found or inactive")
           | st :: _ =>
               count <- count_conflicts station_id start_time end_time ;;
               if count >=? total_slots st then
                 (rollback ;;
                  respond 409 (ErrorBody "No available slots for selected time"))
               else
                 (assignedSlotNumber <-
                    assign_slot station_id start_time end_time (total_slots st)
                                (req_slot_number req) ;;
                  booking <-
                    insert_booking station_id userId assignedSlotNumber
                                   start_time end_time
                                   (totalCost start_time end_time (pricing_per_hour st))
                                   "pending" ;;
                  commit ;;
                  emit station_id "new_booking" booking ;;
                  respond 201 (BookingBody booking))
           end
     | _, _, _ => respond 400 (ErrorBody "Missing required fields")
     end)
    (rollback ;;
     respond 500 (ErrorBody "Failed to create booking")).

(** The world a rolled-back request leaves behind. *)
Definition rolled_back (w : World) : World :=
  mkWorld (tables w) None (booking_seq w) (emitted w).

(** The slot the resolver hands to the INSERT. *)
Definition resolved_slot (sid s e total : Z) (slot : JsValue) (d : Database) : JsValue :=
  if truthy slot then slot
  else scan_slots (used_slots sid s e d) (slot_range total) slot.

(** The row the INSERT writes. *)
Definition new_booking (w : World) (sid : Z) (userId : string) (sl : option Z)
           (s e : Z) (st : Station) : Booking :=
  mkBooking (booking_seq w + 1) sid userId sl s e
            (totalCost s e (pricing_per_hour st)) "pending".

(** ** PUT /bookings/:id/status, DELETE /bookings/:id and the admin override *)

Definition set_status (status : string) (b : Booking) : Booking :=
  mkBooking (b_id b) (b_station_id b) (b_user_id b) (b_slot_number b)
            (b_start_time b) (b_end_time b) (b_total_cost b) status.

Definition update_where (p : Booking -> bool) (status : string) (d : Database)
  : Database :=
  mkDatabase (stations d)
             (map (fun b => if p b then set_status status b else b) (bookings d))
             (power_logs d).

(** [UPDATE bookings SET status = $1 ... WHERE p RETURNING *] *)
Definition update_status (p : Booking -> bool) (status : string)
  : Handler (list Booking) :=
  query QUpdateStatus (fun w =>
    (map (set_status status) (filter p (bookings (view w))),
     write (update_where p status) w)).

Definition add_power_log (l : PowerLog) (d : Database) : Database :=
  mkDatabase (stations d) (bookings d) (power_logs d ++ [l]).

(** [INSERT INTO power_logs (station_id, booking_id, power_kw) VALUES (...)] *)
Definition insert_power_log (station_id booking_id power_kw : Z) : Handler unit :=
  query QInsertPowerLog (fun w =>
    (tt, write (add_power_log (mkPowerLog station_id booking_id power_kw)) w)).

(** [['active', 'completed', 'cancelled'].includes(status)] *)
Definition valid_status (status : string) : bool :=
  existsb (String.eqb status) ["active"; "completed"; "cancelled"].

(** [router.put('/:id/status', requireAuth, ...)] of the booking routes. *)
Definition put_status (userId : string) (id : Z) (status : string) : Handler unit :=
  try_catch
    (if negb (valid_status status) then
       respond 400 (ErrorBody "Invalid status")
     else
       rows <- update_status
                 (fun b => (b_id b =? id) && (b_user_id b =? userId)%string)
                 status ;;
       match rows with
       | [] => respond 404 (ErrorBody "Booking not found")
       | booking :: _ =>
           (if (status =? "active")%string then
              insert_power_log (b_station_id booking) (b_id booking) 0
            else ret tt) ;;
           emit (b_station_id booking) "status_change" booking ;;
           respond 200 (BookingBody booking)
       end)
    (respond 500 (ErrorBody "Failed to update booking")).

(** [router.put('/bookings/:id/status', requireAuth, requireAdmin, ...)] of
    the admin routes, once [requireAdmin] has let the request through. *)
Definition admin_put_status (id : Z) (status : string) : Handler unit :=
  try_catch
    (if negb (valid_status status) then
       respond 400 (ErrorBody "Invalid status")
     else
       rows <- update_status (fun b => b_id b =? id) status ;;
       match rows with
       | [] => respond 404 (ErrorBody "Booking not found")
       | booking :: _ =>
           emit (b_station_id booking) "admin_status_change" booking ;;
           respond 200 (BookingBody booking)
       end)
    (respond 500 (ErrorBody "Failed to update booking status")).

(** [router.delete('/:id', requireAuth, ...)] *)
Definition delete_booking (userId : string) (id : Z) : Handler unit :=
  try_catch
    (rows <- update_status
               (fun b => (b_id b =? id) && (b_user_id b =? userId)%string
                         && ((b_status b =? "pending")%string
                             || (b_status b =? "active")%string))
               "cancelled" ;;
     match rows with
     | [] => respond 404 (ErrorBody "Booking not found or cannot be cancelled")
     | booking :: _ =>
         emit (b_station_id booking) "cancellation" booking ;;
         respond 200 (MessageBody "Booking cancelled successfully")
     end)
    (respond 500 (ErrorBody "Failed to cancel booking")).

(** ** The specification's vocabulary *)

(** Half-open overlap, as the specification words it: [s1 < e2 AND s2 < e1]. *)
Definition half_open_overlap (s1 e1 s2 e2 : Z) : bool :=
  (s1 <? e2) && (s2 <? e1).

(** The lifecycle edges of the specification. *)
Definition lifecycle_edge (from to : string) : bool :=
  ((from =? "pending") && (to =? "active"))%string
  || ((from =? "pending") && (to =? "cancelled"))%string
  || ((from =? "active") && (to =? "completed"))%string
  || ((from =? "active") && (to =? "cancelled"))%string.

(** Two bookings hold the same slot of the same station over overlapping
    half-open windows. *)
Definition double_booked (b1 b2 : Booking) : bool :=
  holds_slot b1 && holds_slot b2
  && (b_station_id b1 =? b_station_id b2)
  && match b_slot_number b1, b_slot_number b2 with
     | Some k1, Some k2 => k1 =? k2
     | _, _ => false
     end
  && half_open_overlap (b_start_time b1) (b_end_time b1)
                       (b_start_time b2) (b_end_time b2).

Fixpoint no_double_booking (bs : list Booking) : bool :=
  match bs with
  | [] => true
  | b :: rest =>
      forallb (fun b' => negb (double_booked b b')) rest && no_double_booking rest
  end.

(** The error kinds of the specification, and the kind of each failure reply
    of POST /bookings (400 missing fields, 404 station, 409 capacity, 500). *)
Inductive ErrorKind : Type :=
| ValidationError
| StationUnavailable
| NoCapacity
| SlotConflict
| NoSlotAvailable
| InvalidWindow
| InvalidTransition
| Forbidden
| PersistenceError.

Definition post_booking_error (r : Response) : option ErrorKind :=
  match body r with
  | ErrorBody _ =>
      if status_code r =? 400 then Some ValidationError
      else if status_code r =? 404 then Some StationUnavailable
      else if status_code r =? 409 then Some NoCapacity
      else if status_code r =? 500 then Some PersistenceError
      else None
  | _ => None
  end.

Definition is_error (r : Response) : bool :=
  match body r with
  | ErrorBody _ => true
  | _ => false
  end.

(** ** Worlds and requests used in the examples *)

(** The instant [h]:[m] of the day the examples play in. *)
Definition clock (h m : Z) : Z := (h * 60 + m) * 60000.

Definition calm : Env := mkEnv (fun _ => false) false.

Definition socket_down : Env := mkEnv (fun _ => false) true.

Definition station_with (slots : Z) : Station := mkStation 1 slots 25 "active".

Definition held (id slot : Z) (start_time end_time : Z) (status : string) : Booking :=
  mkBooking id 1 "user_a" (Some slot) start_time end_time 2500 status.

Definition world_of (slots : Z) (bs : list Booking) : World :=
  mkWorld (mkDatabase [station_with slots] bs []) None (Z.of_nat (List.length bs)) [].

Definition request (start_time end_time : Z) (slot : JsValue) : BookingRequest :=
  mkRequest (Some 1) (Some start_time) (Some end_time) slot.

(** ** Capacity, keys and sequences of calls *)

(** The number of pending or active bookings of a station whose window,
    read with both ends included as the conflict count reads it, holds the
    instant [t]. *)
Definition load (sid t : Z) (bs : list Booking) : nat :=
  List.length
    (filter (fun b => (b_station_id b =? sid) && holds_slot b
                      && between t (b_start_time b) (b_end_time b)) bs).

(** No station that POST /bookings would find is loaded, at any instant,
    beyond its [total_slots]. *)
Definition within_capacity (d : Database) : Prop :=
  forall sid st rest t,
    find_station sid d = st :: rest ->
    Z.of_nat (load sid t (bookings d)) <= total_slots st.

(** Booking ids are pairwise distinct and none is ahead of the sequence. *)
Definition well_keyed (w : World) : Prop :=
  NoDup (map b_id (bookings (tables w)))
  /\ forall b, In b (bookings (tables w)) -> b_id b <= booking_seq w.

(** Calls served one after another, each under its own environment. *)
Definition serve (calls : list (Env * Handler unit)) (w : World) : World :=
  fold_left (fun w c => snd (run (snd c) (fst c) w)) calls w.

(** The calls of the booking routes and of the admin override. *)
Inductive booking_call : Handler unit -> Prop :=
| call_post (userId : string) (req : BookingRequest) :
    booking_call (post_booking userId req)
| call_put_status (userId : string) (id : Z) (status : string) :
    booking_call (put_status userId id status)
| call_admin_put_status (id : Z) (status : string) :
    booking_call (admin_put_status id status)
| call_delete (userId : string) (id : Z) :
    booking_call (delete_booking userId id).

(** Those among them that activate nothing: creation, cancellation, and
    status updates to anything but active. *)
Inductive admitting_call : Handler unit -> Prop :=
| admit_post (userId : string) (req : BookingRequest) :
    admitting_call (post_booking userId req)
| admit_put_status (userId : string) (id : Z) (status : string) :
    status <> "active" -> admitting_call (put_status userId id status)
| admit_admin_put_status (id : Z) (status : string) :
    status <> "active" -> admitting_call (admin_put_status id status)
| admit_delete (userId : string) (id : Z) :
    admitting_call (delete_booking userId id).

(** The row test of DELETE /bookings/:id. *)
Definition cancellable (userId : string) (id : Z) (b : Booking) : bool :=
  (b_id b =? id) && (b_user_id b =? userId)%string
  && ((b_status b =? "pending")%string || (b_status b =? "active")%string).

(** The bookings table after the UPDATE of DELETE /bookings/:id. *)
Definition cancel_rows (userId : string) (id : Z) (bs : list Booking) : list Booking :=
  map (fun b => if cancellable userId id b then set_status "cancelled" b else b) bs.

(** ** The wider store and its routes

    The routes below read and write more than the booking routes do: the
    users table, the [power_consumption] column of the bookings (kept here
    as a table from booking id to reading), and the power events sent to
    the sockets.  They query through the pool, outside any transaction, so
    every statement commits on its own.  Their replies carry other bodies,
    and each of their queries can fail on its own. *)

Record User : Type := mkUser {
  clerk_id : string;
  role : string
}.

(** The payload of a [powerUpdate] event, without its timestamp. *)
Record PowerEvent : Type := mkPowerEvent {
  pe_room : Z;
  pe_booking_id : Z;
  pe_station_id : Z;
  pe_power_kw : Z
}.

(** One entry of the availability reply. *)
Record TimeSlot : Type := mkTimeSlot {
  ts_time : string;
  ts_available_slots : Z;
  ts_is_available : bool
}.

Inductive Payload : Type :=
| PError (error : string)
| PMessage (message : string)
| PBooking (booking : Booking)
| PPower (power_kw : Z)                      (* { success: true, power_kw } *)
| PRows (rows : list (Booking * Station))    (* bookings joined with their station *)
| PSlots (timeSlots : list TimeSlot).

Record Reply : Type := mkReply {
  code : Z;
  payload : Payload
}.

Record Site : Type := mkSite {
  world : World;
  users : list User;
  power_consumption : list (Z * Z);
  power_sent : list PowerEvent
}.

Inductive SiteQuery : Type :=
| QSelectRole
| QSelectActiveBooking
| QUpdatePower
| QInsertReading
| QSelectMine
| QCountActive
| QDeleteStation
| QSelectTotalSlots
| QSelectDay.

Record SiteEnv : Type := mkSiteEnv {
  base_env : Env;
  site_fault : SiteQuery -> bool
}.

Inductive Outcome (A : Type) : Type :=
| Go (a : A)
| Done (r : Reply)
| Raise.

Arguments Go {A} a.
Arguments Done {A} r.
Arguments Raise {A}.

Definition Route (A : Type) : Type := SiteEnv -> Site -> Outcome A * Site.

Definition give {A} (a : A) : Route A := fun _ s => (Go a, s).

Definition and_then {A B} (m : Route A) (k : A -> Route B) : Route B :=
  fun env s =>
    match m env s with
    | (Go a, s') => k a env s'
    | (Done r, s') => (Done r, s')
    | (Raise, s') => (Raise, s')
    end.

Declare Scope route_scope.
Delimit Scope route_scope with route.
Notation "x <- m ;; k" := (and_then m (fun x => k))
  (at level 61, m at next level, right associativity) : route_scope.
Notation "m ;; k" := (and_then m (fun _ => k))
  (at level 61, right associativity) : route_scope.

(** [return res.status(code).json(payload)], or [res.json(payload)] with 200. *)
Definition finish {A} (c : Z) (p : Payload) : Route A :=
  fun _ s => (Done (mkReply c p), s).

(** [try { body } catch (error) { handler }] *)
Definition attempt {A} (body handler : Route A) : Route A :=
  fun env s =>
    match body env s with
    | (Raise, s') => handler env s'
    | other => other
    end.

Definition serve_route (h : Route unit) (env : SiteEnv) (s : Site)
  : option Reply * Site :=
  match h env s with
  | (Done r, s') => (Some r, s')
  | (_, s') => (None, s')
  end.

(** A query that reads. *)
Definition ask {A} (q : SiteQuery) (f : Site -> A) : Route A :=
  fun env s => if site_fault env q then (Raise, s) else (Go (f s), s).

(** A statement that writes and returns rows. *)
Definition exec {A} (q : SiteQuery) (f : Site -> A * Site) : Route A :=
  fun env s =>
    if site_fault env q then (Raise, s)
    else let (a, s') := f s in (Go a, s').

Definition with_world (w : World) (s : Site) : Site :=
  mkSite w (users s) (power_consumption s) (power_sent s).

Definition with_tables (d : Database) (s : Site) : Site :=
  with_world (mkWorld d (txn (world s)) (booking_seq (world s)) (emitted (world s))) s.

(** The committed rows, which is what the pool sees. *)
Definition rows_of (s : Site) : Database := tables (world s).

(** ** PUT /bookings/:id/power *)

(** [UPDATE bookings SET power_consumption = $1, updated_at = NOW() WHERE id = $2] *)
Definition set_power (id power_kw : Z) (s : Site) : Site :=
  if existsb (fun b => b_id b =? id) (bookings (rows_of s)) then
    mkSite (world s) (users s)
           ((id, power_kw) :: filter (fun e => negb (fst e =? id)) (power_consumption s))
           (power_sent s)
  else s.

Definition read_power (id : Z) (s : Site) : option Z :=
  option_map snd (find (fun e => fst e =? id) (power_consumption s)).

Definition emit_power (stationId id power_kw : Z) : Route unit :=
  fun env s =>
    if emit_throws (base_env env) then (Raise, s)
    else (Go tt,
          mkSite (world s) (users s) (power_consumption s)
                 (power_sent s ++ [mkPowerEvent stationId id stationId power_kw])).

(** The row test of the route: the caller's booking of that id, if active. *)
Definition active_own (userId : string) (id : Z) (b : Booking) : bool :=
  (b_id b =? id) && (b_user_id b =? userId)%string && (b_status b =? "active")%string.

(** [router.put('/:id/power', requireAuth, ...)], for a reading that is a
    whole number of kW. *)
Definition put_power (userId : string) (id power_kw : Z) : Route unit :=
  attempt
    (rows <- ask QSelectActiveBooking
               (fun s => map b_station_id
                             (filter (active_own userId id) (bookings (rows_of s)))) ;;
     match rows with
     | [] => finish 404 (PError "Active booking not found")
     | stationId :: _ =>
         exec QUpdatePower (fun s => (tt, set_power id power_kw s)) ;;
         exec QInsertReading
              (fun s => (tt, with_tables
                               (add_power_log (mkPowerLog stationId id power_kw)
                                              (rows_of s)) s)) ;;
         emit_power stationId id power_kw ;;
         finish 200 (PPower power_kw)
     end)%route
    (finish 500 (PError "Failed to update power consumption")).

(** ** The booking routes as routes of the wider store *)

Definition reply_of (r : Response) : Reply :=
  mkReply (status_code r)
          (match body r with
           | ErrorBody e => PError e
           | MessageBody m => PMessage m
           | BookingBody b => PBooking b
           end).

(** A handler of the booking routes, run on the world of the site. *)
Definition on_world (h : Handler unit) : Route unit :=
  fun env s =>
    match h (base_env env) (world s) with
    | (Next a, w') => (Go a, with_world w' s)
    | (Respond r, w') => (Done (reply_of r), with_world w' s)
    | (Throw, w') => (Raise, with_world w' s)
    end.

(** ** requireAdmin and DELETE /admin/stations/:id *)

(** The middleware: the role of the first users row with the caller's id
    must be admin; then [next()] runs the route.  The route is an async
    function, so what it throws does not reach the [catch] of the
    middleware. *)
Definition require_admin (userId : string) (next : Route unit) : Route unit :=
  (attempt
     (rows <- ask QSelectRole
                (fun s => map role (filter (fun u => (clerk_id u =? userId)%string)
                                           (users s))) ;;
      match rows with
      | [] => finish 403 (PError "Admin access required")
      | r :: _ =>
          if negb (r =? "admin")%string then
            finish 403 (PError "Admin access required")
          else give tt
      end)
     (finish 500 (PError "Authentication error")) ;;
   next)%route.

Definition remove_station (id : Z) (d : Database) : Database :=
  mkDatabase (filter (fun st => negb (st_id st =? id)) (stations d))
             (bookings d) (power_logs d).

(** [router.delete('/stations/:id', requireAuth, requireAdmin, ...)].  The
    statement removes station rows; what the constraints of the schema,
    which is not among the sources, do on top of it is not modelled. *)
Definition admin_delete_station (id : Z) : Route unit :=
  attempt
    (count <- ask QCountActive
                (fun s => Z.of_nat
                            (List.length
                               (filter (fun b => (b_station_id b =? id)
                                                 && (b_status b =? "active")%string)
                                       (bookings (rows_of s))))) ;;
     if count >? 0 then
       finish 400 (PError "Cannot delete station with active bookings")
     else
       (rows <- exec QDeleteStation
                  (fun s => (filter (fun st => st_id st =? id) (stations (rows_of s)),
                             with_tables (remove_station id (rows_of s)) s)) ;;
        match rows with
        | [] => finish 404 (PError "Station not found")
        | _ :: _ => finish 200 (PMessage "Station deleted successfully")
        end))%route
    (finish 500 (PError "Failed to delete station")).

(** ** GET /bookings/my-bookings *)

(** [FROM bookings b JOIN stations s ON b.station_id = s.id] *)
Definition join_stations (sts : list Station) (bs : list Booking)
  : list (Booking * Station) :=
  flat_map (fun b => map (pair b) (filter (fun st => st_id st =? b_station_id b) sts)) bs.

(** [ORDER BY b.start_time DESC], as an insertion sort; rows with equal
    start times come out in an order the statement does not fix. *)
Fixpoint insert_by_start (r : Booking * Station) (rows : list (Booking * Station))
  : list (Booking * Station) :=
  match rows with
  | [] => [r]
  | r' :: rest =>
      if b_start_time (fst r') <? b_start_time (fst r) then r :: rows
      else r' :: insert_by_start r rest
  end.

Definition order_by_start_desc (rows : list (Booking * Station))
  : list (Booking * Station) :=
  fold_right insert_by_start [] rows.

(** [router.get('/my-bookings', requireAuth, ...)] *)
Definition my_bookings (userId : string) : Route unit :=
  attempt
    (rows <- ask QSelectMine
               (fun s => order_by_start_desc
                           (join_stations (stations (rows_of s))
                              (filter (fun b => (b_user_id b =? userId)%string)
                                      (bookings (rows_of s))))) ;;
     finish 200 (PRows rows))%route
    (finish 500 (PError "Failed to fetch bookings")).

(** ** GET /stations/:id/availability

    Instants are counted from a local midnight; the server and the store
    are taken to run in one zone, without daylight shifts. *)

(** [new Date(t).getHours()] *)
Definition hours_of (t : Z) : Z := (t / 3600000) mod 24.

(** [DATE(t)], as a day number. *)
Definition day_of (t : Z) : Z := t / 86400000.

(** [hour.toString().padStart(2, '0')] followed by [:00], for an hour below 100. *)
Definition slot_time (hour : nat) : string :=
  String (Ascii.ascii_of_nat (48 + hour / 10))
         (String (Ascii.ascii_of_nat (48 + hour mod 10)) ":00").

(** The bookings that the loop counts at [hour]. *)
Definition covers_hour (hour : nat) (b : Booking) : bool :=
  (hours_of (b_start_time b) <=? Z.of_nat hour)
  && (Z.of_nat hour <? hours_of (b_end_time b)).

(** One turn of the loop. *)
Definition slot_at (totalSlots : Z) (rows : list Booking) (hour : nat) : TimeSlot :=
  let availableSlots :=
    totalSlots - Z.of_nat (List.length (filter (covers_hour hour) rows)) in
  mkTimeSlot (slot_time hour) (Z.max 0 availableSlots) (availableSlots >? 0).

Definition time_slots (totalSlots : Z) (rows : list Booking) : list TimeSlot :=
  map (slot_at totalSlots rows) (seq 0 24).

(** The bookings of the station that start on the day and hold a slot. *)
Definition day_rows (id date : Z) (bs : list Booking) : list Booking :=
  filter (fun b => (b_station_id b =? id) && (day_of (b_start_time b) =? date)
                   && holds_slot b) bs.

(** [router.get('/:id/availability', ...)]; [date] is [None] when the query
    has no date or an empty one. *)
Definition availability (id : Z) (date : option Z) : Route unit :=
  attempt
    (match date with
     | None => finish 400 (PError "Date parameter required")
     | Some day =>
         stationRows <- ask QSelectTotalSlots
                          (fun s => map total_slots
                                        (filter (fun st => st_id st =? id)
                                                (stations (rows_of s)))) ;;
         match stationRows with
         | [] => finish 404 (PError "Station not found")
         | totalSlots :: _ =>
             rows <- ask QSelectDay (fun s => day_rows id day (bookings (rows_of s))) ;;
             finish 200 (PSlots (time_slots totalSlots rows))
         end
     end)%route
    (finish 500 (PError "Failed to fetch availability")).

(** ** GET /admin/bookings: the statements

    The route builds its two statements by appending to a text and pushing
    to a parameter array.  [${++n}] writes the counter into the text;
    [$${++n}] writes a dollar sign and the counter, a placeholder. *)

(** A counter as the template literal prints it. *)
Definition decimal (n : nat) : string := NilZero.string_of_uint (Nat.to_uint n).

Fixpoint occurrences (c : Ascii.ascii) (s : string) : nat :=
  match s with
  | EmptyString => 0%nat
  | String c' rest =>
      ((if Ascii.eqb c c' then 1 else 0) + occurrences c rest)%nat
  end.

(** The number of dollar signs of a statement: of its placeholders. *)
Definition placeholders (q : string) : nat := occurrences "$"%char q.

Definition bookings_query_head : string :=
  "
      SELECT 
        b.*,
        s.name as station_name,
        s.address as station_address
      FROM bookings b
      JOIN stations s ON b.station_id = s.id
      WHERE 1=1
    ".

Definition bookings_count_head : string :=
  "
      SELECT COUNT(" ++ String "*"%char ") as total
      FROM bookings b
      JOIN stations s ON b.station_id = s.id
      WHERE 1=1
    ".

(** [if (v) { query += clause(++paramCount); params.push(v); }] *)
Definition push_filter (clause : nat -> string) (v : JsValue)
           (st : string * list JsValue * nat) : string * list JsValue * nat :=
  let '(q, ps, n) := st in
  if truthy v then ((q ++ clause (S n))%string, ps ++ [v], S n) else st.

(** The listing statement and its parameters; [page] and [limit] are the
    numbers of the query string, or their defaults 1 and 50. *)
Definition admin_bookings_query (status station_id date_from date_to : JsValue)
           (page limit : Z) : string * list JsValue :=
  let st0 := (bookings_query_head, @nil JsValue, 0%nat) in
  let st1 := push_filter (fun n => (" AND b.status = $" ++ decimal n)%string) status st0 in
  let st2 := push_filter (fun n => (" AND b.station_id = " ++ decimal n)%string) station_id st1 in
  let st3 := push_filter (fun n => (" AND b.start_time >= " ++ decimal n)%string) date_from st2 in
  let st4 := push_filter (fun n => (" AND b.start_time <= " ++ decimal n)%string) date_to st3 in
  let '(q, ps, n) := st4 in
  let q := (q ++ " ORDER BY b.created_at DESC")%string in
  let offset := (page - 1) * limit in
  let q := (q ++ " LIMIT " ++ decimal (S n) ++ " OFFSET " ++ decimal (S (S n)))%string in
  (q, ps ++ [JsNumber limit; JsNumber offset]).

(** The counting statement and its parameters. *)
Definition admin_bookings_count_query (status station_id date_from date_to : JsValue)
  : string * list JsValue :=
  let st0 := (bookings_count_head, @nil JsValue, 0%nat) in
  let st1 := push_filter (fun n => (" AND b.status = " ++ decimal n)%string) status st0 in
  let st2 := push_filter (fun n => (" AND b.station_id = " ++ decimal n)%string) station_id st1 in
  let st3 := push_filter (fun n => (" AND b.start_time >= " ++ decimal n)%string) date_from st2 in
  let st4 := push_filter (fun n => (" AND b.start_time <= " ++ decimal n)%string) date_to st3 in
  let '(q, ps, n) := st4 in
  (q, ps).

(** How many of the four filters are present. *)
Definition filters_given (status station_id date_from date_to : JsValue) : nat :=
  ((if truthy status then 1 else 0) + (if truthy station_id then 1 else 0)
   + (if truthy date_from then 1 else 0) + (if truthy date_to then 1 else 0))%nat.

(** * Properties *)

(** ** The window tests *)

Lemma between_spec (x lo hi : Z) : between x lo hi = true <-> lo <= x <= hi.
Proof.
  unfold between. rewrite andb_true_iff, !Z.leb_le. tauto.
Qed.

Lemma conflict_window_spec (s e : Z) (b : Booking) :
  conflict_window s e b = true <->
  b_start_time b <= s <= b_end_time b
  \/ b_start_time b <= e <= b_end_time b
  \/ s <= b_start_time b <= e.
Proof.
  unfold conflict_window. rewrite !orb_true_iff, !between_spec. tauto.
Qed.

Lemma used_window_spec (s e : Z) (b : Booking) :
  used_window s e b = true <->
  b_start_time b <= s <= b_end_time b \/ b_start_time b <= e <= b_end_time b.
Proof.
  unfold used_window. rewrite orb_true_iff, !between_spec. tauto.
Qed.

Lemma used_window_conflict_window (s e : Z) (b : Booking) :
  used_window s e b = true -> conflict_window s e b = true.
Proof.
  rewrite used_window_spec, conflict_window_spec. tauto.
Qed.

(** C2, as the code has it: on well-formed windows the conflict count tests
    the closed intervals [[s1,e1]] and [[s2,e2]] for a common instant, so a
    window that starts at the instant another one ends is counted. *)
Theorem conflict_window_closed_intervals (s e : Z) (b : Booking) :
  s <= e -> b_start_time b <= b_end_time b ->
  (conflict_window s e b = true <-> s <= b_end_time b /\ b_start_time b <= e).
Proof.
  intros Hreq Hrow. rewrite conflict_window_spec. lia.
Qed.

Lemma conflict_window_closed_intervals_witness :
  conflict_window (clock 11 0) (clock 12 0)
                  (held 1 1 (clock 10 0) (clock 11 0) "pending") = true
  <-> clock 11 0 <= clock 11 0 /\ clock 10 0 <= clock 12 0.
Proof.
  apply (conflict_window_closed_intervals (clock 11 0) (clock 12 0)
           (held 1 1 (clock 10 0) (clock 11 0) "pending")).
  - vm_compute. discriminate.
  - vm_compute. discriminate.
Defined.

(** C2 fails at the touching boundary: [10:00,11:00) against [11:00,12:00)
    do not overlap as half-open windows, yet the conflict test counts the
    pair and a one-slot station turns the second request down. *)
Lemma touching_windows_conflict :
  half_open_overlap (clock 11 0) (clock 12 0) (clock 10 0) (clock 11 0) = false
  /\ conflict_window (clock 11 0) (clock 12 0)
                     (held 1 1 (clock 10 0) (clock 11 0) "pending") = true
  /\ fst (run (post_booking "user_b" (request (clock 11 0) (clock 12 0) JsUndefined))
              calm
              (world_of 1 [held 1 1 (clock 10 0) (clock 11 0) "pending"]))
     = Some (mkResponse 409 (ErrorBody "No available slots for selected time")).
Proof.
  repeat split; vm_compute; reflexivity.
Qed.

Example properly_overlapping_windows_conflict :
  half_open_overlap (clock 10 30) (clock 11 30) (clock 10 0) (clock 11 0) = true
  /\ conflict_window (clock 10 30) (clock 11 30)
                     (held 1 1 (clock 10 0) (clock 11 0) "pending") = true.
Proof.
  split; reflexivity.
Qed.

(** Whatever overlaps as half-open windows is counted by the conflict test. *)
Lemma half_open_overlap_is_counted (s e : Z) (b : Booking) :
  s <= e -> b_start_time b <= b_end_time b ->
  half_open_overlap s e (b_start_time b) (b_end_time b) = true ->
  conflict_window s e b = true.
Proof.
  intros Hreq Hrow. unfold half_open_overlap.
  rewrite andb_true_iff, !Z.ltb_lt, conflict_window_spec. lia.
Qed.

(** ** The slot scan *)

Lemma includes_In (usedSlots : list (option Z)) (i : Z) :
  includes usedSlots i = true <-> In (Some i) usedSlots.
Proof.
  unfold includes. rewrite existsb_exists. split.
  - intros [[n|] [Hin Heq]]; [|discriminate].
    apply Z.eqb_eq in Heq. now subst.
  - intros Hin. exists (Some i). split; [assumption|apply Z.eqb_refl].
Qed.

(** The scan over [start, start + len): either it stops at the least
    number not in [usedSlots], or every number is taken and [assigned] is
    returned as it came. *)
Lemma scan_slots_seq (usedSlots : list (option Z)) (assigned : JsValue) :
  forall (len start : nat),
    (exists k,
        scan_slots usedSlots (map Z.of_nat (seq start len)) assigned = JsNumber k
        /\ Z.of_nat start <= k < Z.of_nat (start + len)
        /\ includes usedSlots k = false
        /\ forall j, Z.of_nat start <= j < k -> includes usedSlots j = true)
    \/ (scan_slots usedSlots (map Z.of_nat (seq start len)) assigned = assigned
        /\ forall j, Z.of_nat start <= j < Z.of_nat (start + len) ->
                     includes usedSlots j = true).
Proof.
  induction len as [|len IH]; intros start; simpl.
  - right. split; [reflexivity|]. intros j Hj. lia.
  - destruct (includes usedSlots (Z.of_nat start)) eqn:Hhere; simpl.
    + destruct (IH (S start)) as [(k & Hk & Hrange & Hfree & Hbelow)|[Hnone Hall]].
      * left. exists k. split; [assumption|]. split; [lia|]. split; [assumption|].
        intros j Hj.
        destruct (Z.eq_dec j (Z.of_nat start)) as [->|Hne]; [assumption|].
        apply Hbelow. lia.
      * right. split; [assumption|]. intros j Hj.
        destruct (Z.eq_dec j (Z.of_nat start)) as [->|Hne]; [assumption|].
        apply Hall. lia.
    + left. exists (Z.of_nat start).
      split; [reflexivity|]. split; [lia|]. split; [assumption|].
      intros j Hj. lia.
Qed.

Lemma scan_slots_range (usedSlots : list (option Z)) (total : Z) (assigned : JsValue) :
  (exists k,
      scan_slots usedSlots (slot_range total) assigned = JsNumber k
      /\ 1 <= k <= total
      /\ includes usedSlots k = false
      /\ forall j, 1 <= j < k -> includes usedSlots j = true)
  \/ (scan_slots usedSlots (slot_range total) assigned = assigned
      /\ forall j, 1 <= j <= total -> includes usedSlots j = true).
Proof.
  unfold slot_range.
  destruct (scan_slots_seq usedSlots assigned (Z.to_nat total) 1)
    as [(k & Hk & Hrange & Hfree & Hbelow)|[Hnone Hall]].
  - left. exists k. split; [assumption|]. split; [lia|]. split; [assumption|].
    intros j Hj. apply Hbelow. lia.
  - right. split; [assumption|]. intros j Hj. apply Hall. lia.
Qed.

(** A list that holds every number of [1..total] has at least [total] entries. *)
Lemma full_range_length (usedSlots : list (option Z)) (total : Z) :
  (forall j, 1 <= j <= total -> includes usedSlots j = true) ->
  total <= Z.of_nat (List.length usedSlots).
Proof.
  intros Hall.
  assert (Hincl : incl (map (fun n => Some (Z.of_nat n)) (seq 1 (Z.to_nat total)))
                       usedSlots).
  { intros v Hv. apply in_map_iff in Hv. destruct Hv as (n & <- & Hn).
    apply in_seq in Hn. apply includes_In, Hall. lia. }
  assert (Hnodup : NoDup (map (fun n => Some (Z.of_nat n)) (seq 1 (Z.to_nat total)))).
  { apply Injective_map_NoDup; [|apply seq_NoDup].
    intros x y Hxy. injection Hxy as Hxy. lia. }
  pose proof (NoDup_incl_length Hnodup Hincl) as Hlen.
  rewrite length_map, length_seq in Hlen. lia.
Qed.

Lemma filter_length_le {A} (p q : A -> bool) (l : list A) :
  (forall x, p x = true -> q x = true) ->
  (List.length (filter p l) <= List.length (filter q l))%nat.
Proof.
  intros Himp. induction l as [|x l IH]; simpl; [lia|].
  destruct (p x) eqn:Hp.
  - rewrite (Himp x Hp). simpl. lia.
  - destruct (q x); simpl; lia.
Qed.

(** The used-slot query returns no more values than the conflict query
    counts rows. *)
Lemma used_slots_length (sid s e : Z) (d : Database) :
  Z.of_nat (List.length (used_slots sid s e d)) <= conflict_count sid s e d.
Proof.
  unfold used_slots, conflict_count.
  pose proof (NoDup_incl_length
                (NoDup_nodup slot_eq_dec
                   (map b_slot_number (used_rows sid s e (bookings d))))
                (fun v Hv => proj1 (nodup_In slot_eq_dec _ v) Hv)) as Hlen.
  rewrite length_map in Hlen.
  assert (Hrows : (List.length (used_rows sid s e (bookings d))
                   <= List.length (conflict_rows sid s e (bookings d)))%nat).
  { apply filter_length_le. intros b.
    rewrite !andb_true_iff. intros [Hb Hw]. split; [assumption|].
    now apply used_window_conflict_window. }
  lia.
Qed.

(** Below capacity the scan always finds a slot. *)
Lemma scan_below_capacity (sid s e total : Z) (d : Database) (assigned : JsValue) :
  conflict_count sid s e d < total ->
  exists k,
    scan_slots (used_slots sid s e d) (slot_range total) assigned = JsNumber k
    /\ 1 <= k <= total
    /\ includes (used_slots sid s e d) k = false
    /\ forall j, 1 <= j < k -> includes (used_slots sid s e d) j = true.
Proof.
  intros Hcount.
  destruct (scan_slots_range (used_slots sid s e d) total assigned)
    as [Hfound|[_ Hall]]; [assumption|].
  apply full_range_length in Hall.
  pose proof (used_slots_length sid s e d). lia.
Qed.

(** ** POST /bookings, step by step *)

Ltac unfold_handler :=
  unfold run, post_booking, put_status, admin_put_status, delete_booking,
    try_catch, assign_slot, begin_txn, commit, rollback, emit, respond,
    select_station, count_conflicts, select_used_slots, insert_booking,
    update_status, insert_power_log, query, bind, ret, write, view in *;
  simpl in *.

(** The route when no query fails, for a request with its three required
    fields and a station that is found. *)
Lemma post_booking_trace (env : Env) (w : World) (userId : string)
      (sid s e : Z) (slot : JsValue) (st : Station) (rest : list Station) :
  (forall q, db_fault env q = false) ->
  sid <> 0 ->
  find_station sid (view w) = st :: rest ->
  run (post_booking userId (mkRequest (Some sid) (Some s) (Some e) slot)) env w =
  if conflict_count sid s e (view w) >=? total_slots st then
    (Some (mkResponse 409 (ErrorBody "No available slots for selected time")),
     rolled_back w)
  else
    match sql_integer (resolved_slot sid s e (total_slots st) slot (view w)) with
    | None =>
        (Some (mkResponse 500 (ErrorBody "Failed to create booking")),
         rolled_back w)
    | Some sl =>
        let b := new_booking w sid userId sl s e st in
        if emit_throws env then
          (Some (mkResponse 500 (ErrorBody "Failed to create booking")),
           mkWorld (add_booking b (view w)) None (booking_seq w + 1) (emitted w))
        else
          (Some (mkResponse 201 (BookingBody b)),
           mkWorld (add_booking b (view w)) None (booking_seq w + 1)
                   (emitted w ++ [mkEvent sid "new_booking" b]))
    end.
Proof.
  intros Hcalm Hsid Hst.
  apply Z.eqb_neq in Hsid.
  unfold resolved_slot, new_booking, rolled_back.
  unfold_handler. rewrite Hsid, !Hcalm. simpl.
  unfold view in Hst.
  destruct (txn w) as [d|] eqn:Htxn; simpl; rewrite Hst; simpl;
    rewrite ?Hcalm; simpl.
  all: match goal with
       | |- context [?c >=? ?t] => destruct (c >=? t); simpl
       end; try reflexivity.
  all: destruct (truthy slot); simpl; rewrite ?Hcalm; simpl.
  all: match goal with
       | |- context [sql_integer ?v] => destruct (sql_integer v); simpl
       end; try reflexivity.
  all: rewrite ?Hcalm; simpl; destruct (emit_throws env); simpl; reflexivity.
Qed.

Lemma rolled_back_idle (w : World) : txn w = None -> rolled_back w = w.
Proof.
  destruct w as [d t n ev]. simpl. intros ->. reflexivity.
Qed.

Lemma view_idle (w : World) : txn w = None -> view w = tables w.
Proof.
  unfold view. intros ->. reflexivity.
Qed.

(** A slot number is in the used-slot list exactly when a row of the
    used-slot query carries it. *)
Lemma includes_used_slots (sid s e k : Z) (d : Database) :
  includes (used_slots sid s e d) k = true <->
  exists b, In b (used_rows sid s e (bookings d)) /\ b_slot_number b = Some k.
Proof.
  unfold used_slots. rewrite includes_In, nodup_In, in_map_iff.
  split; intros (b & H1 & H2); exists b; split; assumption.
Qed.

Lemma not_includes_used_slots (sid s e k : Z) (d : Database) :
  includes (used_slots sid s e d) k = false <->
  forall b, In b (used_rows sid s e (bookings d)) -> b_slot_number b <> Some k.
Proof.
  rewrite <- not_true_iff_false, includes_used_slots. split.
  - intros Hno b Hin Hslot. apply Hno. now exists b.
  - intros Hall (b & Hin & Hslot). now apply (Hall b).
Qed.

(** ** C3: a requested slot *)

(** C3, as the code has it: a slot number the caller supplies (any non-zero
    number) is neither range-checked nor checked for occupancy.  The request
    is turned down with 409 exactly when the overlap count has reached
    [total_slots], and then nothing is written; otherwise the booking is
    stored with the slot number as it was supplied. *)
Theorem requested_slot_is_stored_unchecked (env : Env) (w : World) (userId : string)
        (sid s e n : Z) (st : Station) (rest : list Station) :
  (forall q, db_fault env q = false) ->
  emit_throws env = false ->
  txn w = None ->
  sid <> 0 ->
  n <> 0 ->
  find_station sid (tables w) = st :: rest ->
  run (post_booking userId (mkRequest (Some sid) (Some s) (Some e) (JsNumber n))) env w =
  if conflict_count sid s e (tables w) >=? total_slots st then
    (Some (mkResponse 409 (ErrorBody "No available slots for selected time")), w)
  else
    let b := new_booking w sid userId (Some n) s e st in
    (Some (mkResponse 201 (BookingBody b)),
     mkWorld (add_booking b (tables w)) None (booking_seq w + 1)
             (emitted w ++ [mkEvent sid "new_booking" b])).
Proof.
  intros Hcalm Hemit Hidle Hsid Hn Hst.
  rewrite <- (view_idle w Hidle) in *.
  rewrite (post_booking_trace env w userId sid s e (JsNumber n) st rest Hcalm Hsid Hst).
  unfold resolved_slot. simpl.
  apply Z.eqb_neq in Hn. rewrite Hn. simpl.
  rewrite Hemit, (rolled_back_idle w Hidle). reflexivity.
Qed.

Lemma requested_slot_is_stored_unchecked_witness :
  run (post_booking "user_b"
         (mkRequest (Some 1) (Some (clock 10 0)) (Some (clock 11 0)) (JsNumber 99)))
      calm (world_of 2 [held 1 1 (clock 10 0) (clock 11 0) "pending"]) =
  (Some (mkResponse 201
           (BookingBody (mkBooking 2 1 "user_b" (Some 99) (clock 10 0) (clock 11 0)
                                   2500 "pending"))),
   mkWorld (mkDatabase [station_with 2]
              [held 1 1 (clock 10 0) (clock 11 0) "pending";
               mkBooking 2 1 "user_b" (Some 99) (clock 10 0) (clock 11 0) 2500 "pending"]
              [])
           None 2
           [mkEvent 1 "new_booking"
              (mkBooking 2 1 "user_b" (Some 99) (clock 10 0) (clock 11 0) 2500 "pending")]).
Proof.
  rewrite (requested_slot_is_stored_unchecked calm
             (world_of 2 [held 1 1 (clock 10 0) (clock 11 0) "pending"])
             "user_b" 1 (clock 10 0) (clock 11 0) 99 (station_with 2) []).
  - vm_compute. reflexivity.
  - intros q. reflexivity.
  - reflexivity.
  - reflexivity.
  - discriminate.
  - discriminate.
  - reflexivity.
Defined.

(** C3 fails: slot 1 of a two-slot station is held over [10:00,11:00] by a
    pending booking, and a request for slot 1 over the same window is
    answered 201 and stored, with no 409. *)
Lemma taken_slot_request_is_accepted :
  let w := world_of 2 [held 1 1 (clock 10 0) (clock 11 0) "pending"] in
  let b := mkBooking 2 1 "user_b" (Some 1) (clock 10 0) (clock 11 0) 2500 "pending" in
  let out := run (post_booking "user_b" (request (clock 10 0) (clock 11 0) (JsNumber 1)))
                 calm w in
  fst out = Some (mkResponse 201 (BookingBody b))
  /\ bookings (tables (snd out)) = bookings (tables w) ++ [b]
  /\ no_double_booking (bookings (tables (snd out))) = false.
Proof.
  repeat split; vm_compute; reflexivity.
Qed.

(** ** C4: automatic slot assignment *)

Lemma falsy_slot_resolved (sid s e total : Z) (slot : JsValue) (d : Database) :
  truthy slot = false ->
  conflict_count sid s e d < total ->
  exists k,
    resolved_slot sid s e total slot d = JsNumber k
    /\ 1 <= k <= total
    /\ includes (used_slots sid s e d) k = false
    /\ forall j, 1 <= j < k -> includes (used_slots sid s e d) j = true.
Proof.
  intros Hfalsy Hcount. unfold resolved_slot. rewrite Hfalsy.
  now apply scan_below_capacity.
Qed.

(** C4, as the code has it.  For a request without a slot number, on a
    station that is found, and whenever the used-slot query returns the rows
    the conflict count counted: a station at capacity answers 409 from the
    capacity check, before the resolver runs, and nothing is written; below
    capacity the booking gets the least slot of [1..total_slots] carried by
    no overlapping pending or active booking.  The resolver has no failure
    of its own. *)
Theorem auto_assigned_slot_is_first_unused (env : Env) (w : World) (userId : string)
        (sid s e : Z) (slot : JsValue) (st : Station) (rest : list Station) :
  (forall q, db_fault env q = false) ->
  emit_throws env = false ->
  sid <> 0 ->
  truthy slot = false ->
  find_station sid (view w) = st :: rest ->
  conflict_rows sid s e (bookings (view w)) = used_rows sid s e (bookings (view w)) ->
  let out := run (post_booking userId (mkRequest (Some sid) (Some s) (Some e) slot))
                 env w in
  (total_slots st <= conflict_count sid s e (view w) ->
   fst out = Some (mkResponse 409 (ErrorBody "No available slots for selected time"))
   /\ tables (snd out) = tables w)
  /\ (conflict_count sid s e (view w) < total_slots st ->
      exists k,
        fst out = Some (mkResponse 201
                          (BookingBody (new_booking w sid userId (Some k) s e st)))
        /\ 1 <= k <= total_slots st
        /\ (forall b, In b (conflict_rows sid s e (bookings (view w))) ->
                      b_slot_number b <> Some k)
        /\ (forall j, 1 <= j < k ->
                      exists b, In b (conflict_rows sid s e (bookings (view w)))
                                /\ b_slot_number b = Some j)).
Proof.
  intros Hcalm Hemit Hsid Hfalsy Hst Hsame out. subst out.
  rewrite (post_booking_trace env w userId sid s e slot st rest Hcalm Hsid Hst).
  split.
  - intros Hfull. apply Z.geb_le in Hfull. rewrite Hfull. simpl. split; reflexivity.
  - intros Hroom.
    destruct (falsy_slot_resolved sid s e (total_slots st) slot (view w) Hfalsy Hroom)
      as (k & Hk & Hrange & Hfree & Hbelow).
    assert (Hgeb : (conflict_count sid s e (view w) >=? total_slots st) = false).
    { rewrite Z.geb_leb. apply Z.leb_gt. assumption. }
    rewrite Hgeb, Hk. simpl. rewrite Hemit. simpl.
    exists k. split; [reflexivity|]. split; [assumption|]. rewrite Hsame. split.
    + now apply not_includes_used_slots.
    + intros j Hj. apply includes_used_slots. now apply Hbelow.
Qed.

Lemma auto_assigned_slot_is_first_unused_witness :
  let w := world_of 3 [held 1 1 (clock 10 0) (clock 11 0) "pending";
                       held 2 2 (clock 10 0) (clock 11 0) "active"] in
  exists k,
    fst (run (post_booking "user_b" (request (clock 10 0) (clock 11 0) JsUndefined))
             calm w)
    = Some (mkResponse 201
              (BookingBody (new_booking w 1 "user_b" (Some k) (clock 10 0) (clock 11 0)
                                        (station_with 3))))
    /\ 1 <= k <= 3
    /\ (forall b, In b (conflict_rows 1 (clock 10 0) (clock 11 0) (bookings (view w))) ->
                  b_slot_number b <> Some k)
    /\ (forall j, 1 <= j < k ->
                  exists b, In b (conflict_rows 1 (clock 10 0) (clock 11 0)
                                                (bookings (view w)))
                            /\ b_slot_number b = Some j).
Proof.
  intros w.
  apply (auto_assigned_slot_is_first_unused calm w "user_b" 1 (clock 10 0) (clock 11 0)
           JsUndefined (station_with 3) []).
  - intros q. reflexivity.
  - reflexivity.
  - discriminate.
  - reflexivity.
  - reflexivity.
  - reflexivity.
  - vm_compute. reflexivity.
Defined.

Example two_of_three_taken_gives_slot_3 :
  fst (run (post_booking "user_b" (request (clock 10 0) (clock 11 0) JsUndefined))
           calm
           (world_of 3 [held 1 1 (clock 10 0) (clock 11 0) "pending";
                        held 2 2 (clock 10 0) (clock 11 0) "active"]))
  = Some (mkResponse 201
            (BookingBody (mkBooking 3 1 "user_b" (Some 3) (clock 10 0) (clock 11 0)
                                    2500 "pending"))).
Proof.
  vm_compute. reflexivity.
Qed.

(** C4 fails where it names the failure: with slots 1, 2 and 3 of a
    three-slot station taken over the window, the request is turned down by
    the capacity check (409, the specification's [NoCapacity]), not by the
    resolver, whose scan over a full list returns its input and fails
    nothing. *)
Lemma full_station_fails_with_capacity_error :
  let w := world_of 3 [held 1 1 (clock 10 0) (clock 11 0) "pending";
                       held 2 2 (clock 10 0) (clock 11 0) "pending";
                       held 3 3 (clock 10 0) (clock 11 0) "active"] in
  let out := run (post_booking "user_b" (request (clock 10 0) (clock 11 0) JsUndefined))
                 calm w in
  out = (Some (mkResponse 409 (ErrorBody "No available slots for selected time")), w)
  /\ option_map post_booking_error (fst out) = Some (Some NoCapacity)
  /\ option_map post_booking_error (fst out) <> Some (Some NoSlotAvailable)
  /\ scan_slots (used_slots 1 (clock 10 0) (clock 11 0) (tables w)) (slot_range 3)
                JsUndefined = JsUndefined.
Proof.
  repeat split; try (vm_compute; reflexivity).
  vm_compute. discriminate.
Qed.

(** ** POST /bookings under faults *)

(** Follow the route along the tests of a run held in a hypothesis. *)
Ltac walk :=
  repeat match goal with
         | H : context [match find_station ?sid ?d with _ => _ end] |- _ =>
             destruct (find_station sid d) eqn:?; simpl in *; try discriminate
         | H : context [match sql_integer ?v with _ => _ end] |- _ =>
             destruct (sql_integer v) eqn:?; simpl in *; try discriminate
         | H : context [if ?c then _ else _] |- _ =>
             destruct c eqn:?; simpl in *; try discriminate
         end.

Ltac tidy :=
  repeat match goal with
         | H : (_, _) = (_, _) |- _ => injection H as ? ?; subst
         | H : Some _ = Some _ |- _ => injection H as ?; subst
         | H : Respond _ = Respond _ |- _ => injection H as ?; subst
         end.

(** What a 201 tells about the run that produced it. *)
Lemma post_booking_created (env : Env) (w w' : World) (userId : string)
      (req : BookingRequest) (b : Booking) :
  run (post_booking userId req) env w = (Some (mkResponse 201 (BookingBody b)), w') ->
  exists sid s e st rest sl,
    req_station_id req = Some sid /\ req_start_time req = Some s
    /\ req_end_time req = Some e /\ sid <> 0
    /\ find_station sid (view w) = st :: rest
    /\ conflict_count sid s e (view w) < total_slots st
    /\ sql_integer (resolved_slot sid s e (total_slots st) (req_slot_number req) (view w))
       = Some sl
    /\ b = new_booking w sid userId sl s e st
    /\ tables w' = add_booking b (view w)
    /\ emit_throws env = false.
Proof.
  intros Hrun. unfold resolved_slot, new_booking.
  destruct req as [[sid|] [s|] [e|] slot]; unfold_handler;
    try discriminate.
  destruct (sid =? 0) eqn:Hsid; simpl in Hrun; [discriminate|].
  apply Z.eqb_neq in Hsid.
  destruct (db_fault env QBegin); simpl in Hrun; [discriminate|].
  destruct (db_fault env QSelectStation); simpl in Hrun; [discriminate|].
  exists sid, s, e.
  assert (Hview : match txn w with Some d => d | None => tables w end = view w)
    by reflexivity.
  rewrite Hview in *. clear Hview.
  destruct (find_station sid (view w)) as [|st rest] eqn:Hst; simpl in Hrun;
    [discriminate|].
  exists st, rest.
  destruct (db_fault env QCountConflicts); simpl in Hrun; [discriminate|].
  destruct (conflict_count sid s e (view w) >=? total_slots st) eqn:Hcount;
    simpl in Hrun; [discriminate|].
  rewrite Z.geb_leb in Hcount. apply Z.leb_gt in Hcount.
  destruct (truthy slot) eqn:Htruthy; simpl in Hrun.
  - destruct (db_fault env QInsertBooking); simpl in Hrun; [discriminate|].
    destruct (sql_integer slot) as [sl|]; simpl in Hrun; [|discriminate].
    exists sl.
    destruct (db_fault env QCommit); simpl in Hrun; [discriminate|].
    destruct (emit_throws env); simpl in Hrun; [discriminate|].
    injection Hrun as Hb Hw. subst b w'. simpl.
    repeat split; auto.
  - destruct (db_fault env QUsedSlots); simpl in Hrun; [discriminate|].
    destruct (db_fault env QInsertBooking); simpl in Hrun; [discriminate|].
    match type of Hrun with
    | context [sql_integer ?v] => destruct (sql_integer v) as [sl|]
    end; simpl in Hrun; [|discriminate].
    exists sl.
    destruct (db_fault env QCommit); simpl in Hrun; [discriminate|].
    destruct (emit_throws env); simpl in Hrun; [discriminate|].
    injection Hrun as Hb Hw. subst b w'. simpl.
    repeat split; auto.
Qed.

(** ** C7: errors and the store *)

Lemma capacity_check_rejects (env : Env) (w : World) (userId : string)
      (sid s e : Z) (slot : JsValue) (st : Station) (rest : list Station) :
  txn w = None ->
  db_fault env QBegin = false ->
  db_fault env QSelectStation = false ->
  db_fault env QCountConflicts = false ->
  sid <> 0 ->
  find_station sid (tables w) = st :: rest ->
  total_slots st <= conflict_count sid s e (tables w) ->
  run (post_booking userId (mkRequest (Some sid) (Some s) (Some e) slot)) env w =
  (Some (mkResponse 409 (ErrorBody "No available slots for selected time")), w).
Proof.
  intros Hidle Hbegin Hselect Hcount Hsid Hst Hfull.
  apply Z.eqb_neq in Hsid. apply Z.geb_le in Hfull.
  destruct w as [d t n ev]. simpl in Hidle. subst t.
  unfold_handler.
  rewrite Hsid, Hbegin. simpl. rewrite Hselect. simpl. rewrite Hst. simpl.
  rewrite Hcount. simpl. rewrite Hfull. simpl. reflexivity.
Qed.

Lemma error_before_commit_leaves_store (env : Env) (w w' : World) (userId : string)
      (req : BookingRequest) (r : Response) :
  txn w = None ->
  emit_throws env = false ->
  run (post_booking userId req) env w = (Some r, w') ->
  is_error r = true ->
  tables w' = tables w.
Proof.
  intros Hidle Hemit Hrun Herr.
  destruct w as [d t n ev]. simpl in Hidle. subst t.
  destruct req as [[sid|] [s|] [e|] slot]; unfold_handler.
  all: rewrite ?Hemit in Hrun; simpl in Hrun.
  all: walk.
  all: tidy; simpl in *; try reflexivity; try discriminate.
Qed.

(** C7, as the code has it: a station at capacity answers 409 and nothing
    is written; and every error reply of a run whose notification did not
    fail leaves the tables as they were.  (The one error reply that comes
    with a stored booking is the 500 of a failed emit after COMMIT.) *)
Theorem post_booking_error_leaves_store (env : Env) (w : World) (userId : string)
        (req : BookingRequest) :
  txn w = None ->
  (forall sid s e st rest,
      req_station_id req = Some sid ->
      req_start_time req = Some s ->
      req_end_time req = Some e ->
      sid <> 0 ->
      db_fault env QBegin = false ->
      db_fault env QSelectStation = false ->
      db_fault env QCountConflicts = false ->
      find_station sid (tables w) = st :: rest ->
      total_slots st <= conflict_count sid s e (tables w) ->
      run (post_booking userId req) env w =
      (Some (mkResponse 409 (ErrorBody "No available slots for selected time")), w))
  /\ (forall r w',
         emit_throws env = false ->
         run (post_booking userId req) env w = (Some r, w') ->
         is_error r = true ->
         tables w' = tables w).
Proof.
  intros Hidle. split.
  - intros sid s e st rest Hsid Hs He Hnz Hbegin Hselect Hcount Hst Hfull.
    destruct req as [sid' s' e' slot]. simpl in Hsid, Hs, He. subst sid' s' e'.
    now apply (capacity_check_rejects env w userId sid s e slot st rest).
  - intros r w' Hemit Hrun Herr.
    now apply (error_before_commit_leaves_store env w w' userId req r).
Qed.

Lemma post_booking_error_leaves_store_witness :
  let w := world_of 1 [held 1 1 (clock 10 0) (clock 11 0) "pending"] in
  let req := request (clock 10 30) (clock 11 30) JsUndefined in
  run (post_booking "user_b" req) calm w =
  (Some (mkResponse 409 (ErrorBody "No available slots for selected time")), w)
  /\ tables w = tables w.
Proof.
  intros w req.
  destruct (post_booking_error_leaves_store calm w "user_b" req eq_refl) as [Hfull Herr].
  assert (Hrun : run (post_booking "user_b" req) calm w =
                 (Some (mkResponse 409 (ErrorBody "No available slots for selected time")),
                  w)).
  { apply (Hfull 1 (clock 10 30) (clock 11 30) (station_with 1) []);
      try reflexivity; try discriminate. }
  split; [exact Hrun|].
  apply (Herr (mkResponse 409 (ErrorBody "No available slots for selected time")) w);
    [reflexivity|exact Hrun|reflexivity].
Defined.

(** C7 fails in its general half: when the emit after COMMIT throws, the
    caller gets the 500 of the catch block and the booking is stored. *)
Lemma error_reply_with_booking_stored :
  let w := world_of 2 [] in
  let out := run (post_booking "user_b" (request (clock 10 0) (clock 11 0) JsUndefined))
                 socket_down w in
  option_map is_error (fst out) = Some true
  /\ bookings (tables w) = []
  /\ bookings (tables (snd out))
     = [mkBooking 1 1 "user_b" (Some 1) (clock 10 0) (clock 11 0) 2500 "pending"].
Proof.
  repeat split; vm_compute; reflexivity.
Qed.

(** ** C9: a failing notification *)

(** C9, as the code has it: when the run with a working socket answers 201,
    the same run with an emit that throws keeps the committed booking and
    sends no event, but answers 500: the emit stands inside the [try]
    block, and the ROLLBACK of the [catch] block comes after COMMIT. *)
Theorem emit_failure_keeps_booking_replies_500 (faults : Query -> bool) (w w1 : World)
        (userId : string) (req : BookingRequest) (b : Booking) :
  run (post_booking userId req) (mkEnv faults false) w
  = (Some (mkResponse 201 (BookingBody b)), w1) ->
  exists w2,
    run (post_booking userId req) (mkEnv faults true) w
    = (Some (mkResponse 500 (ErrorBody "Failed to create booking")), w2)
    /\ tables w2 = tables w1
    /\ In b (bookings (tables w2))
    /\ emitted w2 = emitted w.
Proof.
  intros Hrun.
  destruct w as [d t n ev].
  destruct req as [[sid|] [s|] [e|] slot]; unfold_handler; try discriminate.
  walk.
  all: tidy; simpl.
  all: eexists; split; [reflexivity|]; simpl.
  all: destruct t; simpl; (split; [reflexivity|]); (split; [|reflexivity]).
  all: apply in_or_app; right; left; reflexivity.
Qed.

Lemma emit_failure_keeps_booking_replies_500_witness :
  let b := mkBooking 1 1 "user_b" (Some 1) (clock 10 0) (clock 11 0) 2500 "pending" in
  exists w2,
    run (post_booking "user_b" (request (clock 10 0) (clock 11 0) JsUndefined))
        (mkEnv (fun _ => false) true) (world_of 2 [])
    = (Some (mkResponse 500 (ErrorBody "Failed to create booking")), w2)
    /\ tables w2 = mkDatabase [station_with 2] [b] []
    /\ In b (bookings (tables w2))
    /\ emitted w2 = [].
Proof.
  intros b.
  apply (emit_failure_keeps_booking_replies_500 (fun _ => false) (world_of 2 [])
           (mkWorld (mkDatabase [station_with 2] [b] []) None 1
                    [mkEvent 1 "new_booking" b])
           "user_b" (request (clock 10 0) (clock 11 0) JsUndefined) b).
  vm_compute. reflexivity.
Defined.

(** C9 fails on the reply: the booking is committed and stays, but the
    caller of a request whose emit throws receives 500, not 201. *)
Lemma emit_failure_changes_reply :
  let out := run (post_booking "user_b" (request (clock 10 0) (clock 11 0) JsUndefined))
                 socket_down (world_of 2 []) in
  fst out = Some (mkResponse 500 (ErrorBody "Failed to create booking"))
  /\ fst (run (post_booking "user_b" (request (clock 10 0) (clock 11 0) JsUndefined))
              calm (world_of 2 []))
     = Some (mkResponse 201
               (BookingBody (mkBooking 1 1 "user_b" (Some 1) (clock 10 0) (clock 11 0)
                                       2500 "pending")))
  /\ In (mkBooking 1 1 "user_b" (Some 1) (clock 10 0) (clock 11 0) 2500 "pending")
        (bookings (tables (snd out))).
Proof.
  repeat split; try (vm_compute; reflexivity).
  vm_compute. left. reflexivity.
Qed.

(** ** C10: a falsy slot number *)

(** Below capacity the scan does not depend on the value it starts from. *)
Lemma scan_below_capacity_any (sid s e total : Z) (d : Database) (v v' : JsValue) :
  conflict_count sid s e d < total ->
  scan_slots (used_slots sid s e d) (slot_range total) v
  = scan_slots (used_slots sid s e d) (slot_range total) v'.
Proof.
  intros Hcount.
  destruct (scan_below_capacity sid s e total d v Hcount)
    as (k & -> & Hrange & Hfree & Hbelow).
  destruct (scan_below_capacity sid s e total d v' Hcount)
    as (k' & -> & Hrange' & Hfree' & Hbelow').
  f_equal.
  destruct (Z.lt_trichotomy k k') as [Hlt|[Heq|Hgt]]; [|assumption|].
  - rewrite (Hbelow' k) in Hfree by lia. discriminate.
  - rewrite (Hbelow k') in Hfree' by lia. discriminate.
Qed.

Lemma falsy_slot_runs_as_absent (env : Env) (w : World) (userId : string)
      (station start_time end_time : option Z) (v : JsValue) :
  truthy v = false ->
  run (post_booking userId (mkRequest station start_time end_time v)) env w
  = run (post_booking userId (mkRequest station start_time end_time JsUndefined)) env w.
Proof.
  intros Hfalsy.
  destruct station as [sid|], start_time as [s|], end_time as [e|];
    try reflexivity.
  unfold_handler. rewrite Hfalsy. simpl.
  destruct (sid =? 0); simpl; [reflexivity|].
  destruct (db_fault env QBegin); simpl; [reflexivity|].
  destruct (db_fault env QSelectStation); simpl; [reflexivity|].
  assert (Hview : match txn w with Some d => d | None => tables w end = view w)
    by reflexivity.
  rewrite Hview.
  destruct (find_station sid (view w)) as [|st rest]; simpl; [reflexivity|].
  destruct (db_fault env QCountConflicts); simpl; [reflexivity|].
  destruct (conflict_count sid s e (view w) >=? total_slots st) eqn:Hcount;
    simpl; [reflexivity|].
  rewrite Z.geb_leb in Hcount. apply Z.leb_gt in Hcount.
  destruct (db_fault env QUsedSlots); simpl; [reflexivity|].
  rewrite (scan_below_capacity_any sid s e (total_slots st) (view w) v JsUndefined Hcount).
  reflexivity.
Qed.

(** C10: a falsy [slot_number] (0, null, the empty string, false) is
    handled as an absent one, whatever the environment does; and the
    booking such a request creates carries the least slot of
    [1..total_slots] that is not in the used-slot list -- never slot 0. *)
Theorem falsy_slot_is_auto_assigned (env : Env) (w : World) (userId : string)
        (station start_time end_time : option Z) (v : JsValue) :
  truthy v = false ->
  run (post_booking userId (mkRequest station start_time end_time v)) env w
  = run (post_booking userId (mkRequest station start_time end_time JsUndefined)) env w
  /\ forall b w',
      run (post_booking userId (mkRequest station start_time end_time v)) env w
      = (Some (mkResponse 201 (BookingBody b)), w') ->
      exists st rest k,
        find_station (b_station_id b) (view w) = st :: rest
        /\ b_slot_number b = Some k
        /\ 1 <= k <= total_slots st
        /\ includes (used_slots (b_station_id b) (b_start_time b) (b_end_time b) (view w))
                    k = false
        /\ forall j, 1 <= j < k ->
                     includes (used_slots (b_station_id b) (b_start_time b)
                                          (b_end_time b) (view w)) j = true.
Proof.
  intros Hfalsy. split; [now apply falsy_slot_runs_as_absent|].
  intros b w' Hrun.
  apply post_booking_created in Hrun.
  destruct Hrun as (sid & s & e & st & rest & sl & _ & _ & _ & _ & Hst & Hcount
                    & Hsql & Hb & _).
  simpl in Hsql.
  destruct (falsy_slot_resolved sid s e (total_slots st) v (view w) Hfalsy Hcount)
    as (k & Hk & Hrange & Hfree & Hbelow).
  rewrite Hk in Hsql. simpl in Hsql. injection Hsql as <-.
  subst b. simpl. exists st, rest, k. repeat split; assumption || lia.
Qed.

Lemma falsy_slot_is_auto_assigned_witness :
  let w := world_of 2 [held 1 1 (clock 10 0) (clock 11 0) "pending"] in
  let req := mkRequest (Some 1) (Some (clock 10 0)) (Some (clock 11 0)) (JsNumber 0) in
  let b := mkBooking 2 1 "user_b" (Some 2) (clock 10 0) (clock 11 0) 2500 "pending" in
  run (post_booking "user_b" req) calm w
  = run (post_booking "user_b"
           (mkRequest (Some 1) (Some (clock 10 0)) (Some (clock 11 0)) JsUndefined))
        calm w
  /\ exists st rest k,
      find_station (b_station_id b) (view w) = st :: rest
      /\ b_slot_number b = Some k
      /\ 1 <= k <= total_slots st
      /\ includes (used_slots (b_station_id b) (b_start_time b) (b_end_time b) (view w))
                  k = false
      /\ forall j, 1 <= j < k ->
                   includes (used_slots (b_station_id b) (b_start_time b)
                                        (b_end_time b) (view w)) j = true.
Proof.
  intros w req b.
  destruct (falsy_slot_is_auto_assigned calm w "user_b" (Some 1) (Some (clock 10 0))
              (Some (clock 11 0)) (JsNumber 0) eq_refl) as [Habsent Hslot].
  split; [exact Habsent|].
  apply (Hslot b (snd (run (post_booking "user_b" req) calm w))).
  vm_compute. reflexivity.
Defined.

Example slot_zero_gets_first_free_slot :
  fst (run (post_booking "user_b" (request (clock 10 0) (clock 11 0) (JsNumber 0)))
           calm (world_of 2 [held 1 1 (clock 10 0) (clock 11 0) "pending"]))
  = Some (mkResponse 201
            (BookingBody (mkBooking 2 1 "user_b" (Some 2) (clock 10 0) (clock 11 0)
                                    2500 "pending"))).
Proof.
  vm_compute. reflexivity.
Qed.

Example null_and_empty_string_slots_are_auto_assigned :
  forall v, In v [JsNull; JsString ""; JsBool false; JsUndefined] ->
  fst (run (post_booking "user_b" (request (clock 10 0) (clock 11 0) v))
           calm (world_of 2 [held 1 1 (clock 10 0) (clock 11 0) "pending"]))
  = Some (mkResponse 201
            (BookingBody (mkBooking 2 1 "user_b" (Some 2) (clock 10 0) (clock 11 0)
                                    2500 "pending"))).
Proof.
  intros v Hv.
  destruct Hv as [<-|[<-|[<-|[<-|[]]]]]; vm_compute; reflexivity.
Qed.

(** ** C1: one booking per slot and instant *)

(** C1 at a failing input.  On an empty two-slot station a first request
    books [10:30,10:45] and a second one [10:00,11:00], both without a slot
    number.  Both are answered 201 and both get slot 1: the first window
    lies inside the second, which the conflict count sees (third BETWEEN)
    and the used-slot query does not. *)
Theorem contained_window_double_books_slot :
  let w0 := world_of 2 [] in
  let out1 := run (post_booking "user_a" (request (clock 10 30) (clock 10 45) JsUndefined))
                  calm w0 in
  let out2 := run (post_booking "user_b" (request (clock 10 0) (clock 11 0) JsUndefined))
                  calm (snd out1) in
  fst out1 = Some (mkResponse 201
                     (BookingBody (mkBooking 1 1 "user_a" (Some 1) (clock 10 30)
                                             (clock 10 45) 625 "pending")))
  /\ fst out2 = Some (mkResponse 201
                        (BookingBody (mkBooking 2 1 "user_b" (Some 1) (clock 10 0)
                                                (clock 11 0) 2500 "pending")))
  /\ conflict_count 1 (clock 10 0) (clock 11 0) (tables (snd out1)) = 1
  /\ used_slots 1 (clock 10 0) (clock 11 0) (tables (snd out1)) = []
  /\ no_double_booking (bookings (tables (snd out1))) = true
  /\ no_double_booking (bookings (tables (snd out2))) = false.
Proof.
  repeat split; vm_compute; reflexivity.
Qed.

(** ** C6 and C8: status updates *)

Lemma valid_status_cases (status : string) :
  valid_status status = true <->
  status = "active" \/ status = "completed" \/ status = "cancelled".
Proof.
  unfold valid_status. simpl. rewrite !orb_true_iff, !String.eqb_eq.
  intuition discriminate.
Qed.

(** The bookings table after the owner's status update. *)
Lemma put_status_bookings (env : Env) (w : World) (userId : string) (id : Z)
      (status : string) :
  txn w = None ->
  valid_status status = true ->
  db_fault env QUpdateStatus = false ->
  bookings (tables (snd (run (put_status userId id status) env w)))
  = map (fun b => if (b_id b =? id) && (b_user_id b =? userId)%string
                  then set_status status b else b)
        (bookings (tables w)).
Proof.
  intros Hidle Hvalid Hupdate.
  destruct w as [d t n ev]. simpl in Hidle. subst t.
  unfold_handler. rewrite Hvalid. simpl. rewrite Hupdate. simpl.
  destruct (filter _ (bookings d)) as [|b rest]; simpl; [reflexivity|].
  destruct (status =? "active")%string; simpl.
  - destruct (db_fault env QInsertPowerLog); simpl; [reflexivity|].
    destruct (emit_throws env); reflexivity.
  - destruct (emit_throws env); reflexivity.
Qed.

(** The bookings table after the admin override. *)
Lemma admin_put_status_bookings (env : Env) (w : World) (id : Z) (status : string) :
  txn w = None ->
  valid_status status = true ->
  db_fault env QUpdateStatus = false ->
  bookings (tables (snd (run (admin_put_status id status) env w)))
  = map (fun b => if b_id b =? id then set_status status b else b)
        (bookings (tables w)).
Proof.
  intros Hidle Hvalid Hupdate.
  destruct w as [d t n ev]. simpl in Hidle. subst t.
  unfold_handler. rewrite Hvalid. simpl. rewrite Hupdate. simpl.
  destruct (filter _ (bookings d)) as [|b rest]; simpl; [reflexivity|].
  destruct (emit_throws env); reflexivity.
Qed.

Lemma invalid_status_rejected (env : Env) (w : World) (userId : string) (id : Z)
      (status : string) :
  valid_status status = false ->
  run (put_status userId id status) env w
  = (Some (mkResponse 400 (ErrorBody "Invalid status")), w)
  /\ run (admin_put_status id status) env w
     = (Some (mkResponse 400 (ErrorBody "Invalid status")), w).
Proof.
  intros Hinvalid. unfold_handler. rewrite Hinvalid. simpl. split; reflexivity.
Qed.

(** C6, as the code has it.  Neither PUT route looks at the current status.
    A requested status outside active, completed and cancelled is answered
    400 and changes nothing.  Otherwise the booking with the given id (on
    the user route: of that user) takes the requested status: active or
    completed from any status whatever, cancelled from pending or active. *)
Theorem status_update_ignores_current_status (env : Env) (w : World)
        (userId : string) (id : Z) (status : string) :
  txn w = None ->
  db_fault env QUpdateStatus = false ->
  (valid_status status = false ->
   run (put_status userId id status) env w
   = (Some (mkResponse 400 (ErrorBody "Invalid status")), w)
   /\ run (admin_put_status id status) env w
      = (Some (mkResponse 400 (ErrorBody "Invalid status")), w))
  /\ (forall b,
         In b (bookings (tables w)) ->
         b_id b = id ->
         status = "active" \/ status = "completed"
         \/ (status = "cancelled" /\ holds_slot b = true) ->
         (b_user_id b = userId ->
          In (set_status status b)
             (bookings (tables (snd (run (put_status userId id status) env w)))))
         /\ In (set_status status b)
               (bookings (tables (snd (run (admin_put_status id status) env w))))).
Proof.
  intros Hidle Hupdate. split; [apply invalid_status_rejected|].
  intros b Hin Hid Hstatus.
  assert (Hvalid : valid_status status = true).
  { apply valid_status_cases. tauto. }
  rewrite put_status_bookings, admin_put_status_bookings by assumption.
  split.
  - intros Howner. apply in_map_iff. exists b. split; [|assumption].
    rewrite Hid, Howner, Z.eqb_refl, String.eqb_refl. reflexivity.
  - apply in_map_iff. exists b. split; [|assumption].
    rewrite Hid, Z.eqb_refl. reflexivity.
Qed.

Lemma status_update_ignores_current_status_witness :
  let b := held 1 1 (clock 10 0) (clock 11 0) "completed" in
  let w := world_of 2 [b] in
  In (set_status "active" b)
     (bookings (tables (snd (run (put_status "user_a" 1 "active") calm w))))
  /\ In (set_status "active" b)
        (bookings (tables (snd (run (admin_put_status 1 "active") calm w)))).
Proof.
  intros b w.
  destruct (status_update_ignores_current_status calm w "user_a" 1 "active"
              eq_refl eq_refl) as [_ Hset].
  destruct (Hset b) as [Huser Hadmin].
  - left. reflexivity.
  - reflexivity.
  - left. reflexivity.
  - split; [apply Huser; reflexivity|exact Hadmin].
Defined.

(** C6 fails: a completed booking is set back to active by its owner, and
    by the admin override, with a 200 reply; completed -> active is no edge
    of the lifecycle. *)
Lemma completed_booking_is_reactivated :
  let b := held 1 1 (clock 10 0) (clock 11 0) "completed" in
  let w := world_of 2 [b] in
  lifecycle_edge "completed" "active" = false
  /\ run (put_status "user_a" 1 "active") calm w
     = (Some (mkResponse 200 (BookingBody (set_status "active" b))),
        mkWorld (mkDatabase [station_with 2] [set_status "active" b] [mkPowerLog 1 1 0])
                None 1 [mkEvent 1 "status_change" (set_status "active" b)])
  /\ run (admin_put_status 1 "active") calm w
     = (Some (mkResponse 200 (BookingBody (set_status "active" b))),
        mkWorld (mkDatabase [station_with 2] [set_status "active" b] [])
                None 1 [mkEvent 1 "admin_status_change" (set_status "active" b)]).
Proof.
  repeat split; vm_compute; reflexivity.
Qed.

(** The power log after the admin override: as before. *)
Lemma admin_put_status_power_logs (env : Env) (w : World) (id : Z) (status : string) :
  txn w = None ->
  power_logs (tables (snd (run (admin_put_status id status) env w)))
  = power_logs (tables w).
Proof.
  intros Hidle. destruct w as [d t n ev]. simpl in Hidle. subst t.
  unfold_handler.
  destruct (valid_status status); simpl; [|reflexivity].
  destruct (db_fault env QUpdateStatus); simpl; [reflexivity|].
  destruct (filter _ (bookings d)) as [|b rest]; simpl; [reflexivity|].
  destruct (emit_throws env); reflexivity.
Qed.

(** The power log after the owner's status update, when no query fails: one
    entry with reading 0 more when the requested status is active and a
    booking was updated, and no entry more otherwise. *)
Lemma put_status_power_logs (env : Env) (w : World) (userId : string) (id : Z)
      (status : string) :
  txn w = None ->
  (forall q, db_fault env q = false) ->
  power_logs (tables (snd (run (put_status userId id status) env w)))
  = match filter (fun b => (b_id b =? id) && (b_user_id b =? userId)%string)
                 (bookings (tables w)) with
    | b :: _ =>
        if (status =? "active")%string then
          power_logs (tables w) ++ [mkPowerLog (b_station_id b) (b_id b) 0]
        else power_logs (tables w)
    | [] => power_logs (tables w)
    end.
Proof.
  intros Hidle Hcalm. destruct w as [d t n ev]. simpl in Hidle. subst t.
  unfold_handler.
  destruct (valid_status status) eqn:Hvalid; simpl.
  - rewrite Hcalm. simpl.
    destruct (filter _ (bookings d)) as [|b rest]; simpl; [reflexivity|].
    destruct (status =? "active")%string; simpl; rewrite ?Hcalm; simpl;
      destruct (emit_throws env); reflexivity.
  - destruct (filter _ (bookings d)) as [|b rest]; [reflexivity|].
    destruct (status =? "active")%string eqn:Hactive; [|reflexivity].
    apply String.eqb_eq in Hactive. subst status. discriminate.
Qed.

(** C8 at a failing input: the admin override activates a pending booking
    and writes no power-log entry; the owner's route, on the same world,
    writes the entry with reading 0. *)
Theorem admin_activation_writes_no_power_log :
  let b := held 1 1 (clock 10 0) (clock 11 0) "pending" in
  let w := world_of 2 [b] in
  let admin := run (admin_put_status 1 "active") calm w in
  let owner := run (put_status "user_a" 1 "active") calm w in
  fst admin = Some (mkResponse 200 (BookingBody (set_status "active" b)))
  /\ bookings (tables (snd admin)) = [set_status "active" b]
  /\ power_logs (tables (snd admin)) = []
  /\ fst owner = Some (mkResponse 200 (BookingBody (set_status "active" b)))
  /\ power_logs (tables (snd owner)) = [mkPowerLog 1 1 0].
Proof.
  repeat split; vm_compute; reflexivity.
Qed.

Example delete_refuses_a_completed_booking :
  let w := world_of 2 [held 1 1 (clock 10 0) (clock 11 0) "completed"] in
  run (delete_booking "user_a" 1) calm w
  = (Some (mkResponse 404 (ErrorBody "Booking not found or cannot be cancelled")), w).
Proof.
  vm_compute. reflexivity.
Qed.

(** ** C5: the cost *)

(** [toFixed2 x] is within half a hundredth of [x]. *)
Lemma toFixed2_near (x : Q) :
  (x - (1 # 200) <= inject_Z (toFixed2 x) / 100 <= x + (1 # 200))%Q.
Proof.
  unfold toFixed2.
  set (y := (Qabs x * 100 + (1 # 2))%Q).
  pose proof (Qfloor_le y) as Hlo.
  pose proof (Qlt_floor y) as Hhi.
  rewrite inject_Z_plus in Hhi.
  change (inject_Z 1) with 1%Q in Hhi.
  subst y.
  unfold Qdiv. change (/ 100)%Q with (1 # 100)%Q.
  destruct (Qle_bool 0 x) eqn:Hsign.
  - apply Qle_bool_iff in Hsign.
    pose proof (Qabs_pos x Hsign) as Habs.
    lra.
  - assert (Hneg : (x <= 0)%Q).
    { destruct (Qlt_le_dec 0 x) as [Hpos|Hle]; [|assumption].
      apply Qlt_le_weak, Qle_bool_iff in Hpos. congruence. }
    pose proof (Qabs_neg x Hneg) as Habs.
    rewrite inject_Z_opp.
    lra.
Qed.

Lemma toFixed2_nonneg (x : Q) : (0 <= x)%Q -> 0 <= toFixed2 x.
Proof.
  intros Hx. unfold toFixed2.
  apply Qle_bool_iff in Hx as Hsign. rewrite Hsign.
  pose proof (Qabs_nonneg x) as Habs.
  apply (Qfloor_resp_le 0 (Qabs x * 100 + (1 # 2))). lra.
Qed.

Lemma toFixed2_nonpos (x : Q) : (x <= 0)%Q -> toFixed2 x <= 0.
Proof.
  intros Hx. unfold toFixed2.
  pose proof (Qabs_nonneg x) as Habs.
  destruct (Qle_bool 0 x) eqn:Hsign.
  - apply Qle_bool_iff in Hsign.
    pose proof (Qabs_pos x Hsign) as Heq.
    apply (Qfloor_resp_le (Qabs x * 100 + (1 # 2)) (1 # 2)). lra.
  - assert (H0 : 0 <= Qfloor (Qabs x * 100 + (1 # 2))).
    { apply (Qfloor_resp_le 0 (Qabs x * 100 + (1 # 2))). lra. }
    lia.
Qed.

Lemma durationHours_nonneg (s e : Z) : s <= e -> (0 <= durationHours s e)%Q.
Proof.
  intros Hse. unfold durationHours, Qdiv, Qmult, Qinv, Qle. simpl. lia.
Qed.

Lemma durationHours_nonpos (s e : Z) : e <= s -> (durationHours s e <= 0)%Q.
Proof.
  intros Hse. unfold durationHours, Qdiv, Qmult, Qinv, Qle. simpl. lia.
Qed.

(** C5, as the code has it: the cost is the duration in hours times the
    hourly rate, rounded to the nearest hundredth, and no window is turned
    down.  For a rate that is not negative the cost is not negative when
    [start <= end] and not positive when [end <= start]; an empty window
    costs 0.00. *)
Theorem totalCost_rounds_and_takes_any_window (s e : Z) (rate : Q) :
  (durationHours s e * rate - (1 # 200)
   <= inject_Z (totalCost s e rate) / 100
   <= durationHours s e * rate + (1 # 200))%Q
  /\ (s <= e -> (0 <= rate)%Q -> 0 <= totalCost s e rate)
  /\ (e <= s -> (0 <= rate)%Q -> totalCost s e rate <= 0).
Proof.
  split; [apply toFixed2_near|]. split.
  - intros Hse Hrate. apply toFixed2_nonneg.
    apply Qmult_le_0_compat; [now apply durationHours_nonneg|assumption].
  - intros Hse Hrate. apply toFixed2_nonpos.
    pose proof (durationHours_nonpos s e Hse) as Hd.
    setoid_replace (durationHours s e * rate)%Q
      with (- ((- durationHours s e) * rate))%Q by ring.
    assert (Hprod : (0 <= (- durationHours s e) * rate)%Q).
    { apply Qmult_le_0_compat; [lra|assumption]. }
    lra.
Qed.

Lemma totalCost_rounds_and_takes_any_window_witness :
  0 <= totalCost (clock 10 0) (clock 12 0) 25
  /\ totalCost (clock 10 0) (clock 10 0) 25 <= 0.
Proof.
  split.
  - apply (totalCost_rounds_and_takes_any_window (clock 10 0) (clock 12 0) 25).
    + vm_compute. discriminate.
    + vm_compute. discriminate.
  - apply (totalCost_rounds_and_takes_any_window (clock 10 0) (clock 10 0) 25).
    + vm_compute. discriminate.
    + vm_compute. discriminate.
Defined.

Example two_hours_at_25 : totalCost (clock 10 0) (clock 12 0) 25 = 5000.
Proof.
  reflexivity.
Qed.

Example ties_round_away_from_zero :
  toFixed2 (1 # 200) = 1 /\ toFixed2 (- (1 # 200)) = -1 /\ toFixed2 (49 # 10000) = 0.
Proof.
  repeat split; reflexivity.
Qed.

(** C5 fails on the window: a request whose end equals its start is
    answered 201 with cost 0.00, and one whose end precedes its start is
    answered 201 with a negative cost; neither is turned down. *)
Lemma empty_window_is_priced_not_rejected :
  fst (run (post_booking "user_b" (request (clock 10 0) (clock 10 0) JsUndefined))
           calm (world_of 2 []))
  = Some (mkResponse 201
            (BookingBody (mkBooking 1 1 "user_b" (Some 1) (clock 10 0) (clock 10 0)
                                    0 "pending")))
  /\ fst (run (post_booking "user_b" (request (clock 10 0) (clock 9 0) JsUndefined))
              calm (world_of 2 []))
     = Some (mkResponse 201
               (BookingBody (mkBooking 1 1 "user_b" (Some 1) (clock 10 0) (clock 9 0)
                                       (-2500) "pending"))).
Proof.
  split; vm_compute; reflexivity.
Qed.

(** * Further properties of the booking routes *)

(** ** POST /bookings: rejections *)

(** A request that lacks the station, the start or the end -- or whose
    station id is 0, which [!station_id] takes for a missing one -- is
    answered 400 before any query: no transaction, no row, no event. *)
Theorem missing_fields_rejected (env : Env) (w : World) (userId : string)
        (req : BookingRequest) :
  req_station_id req = None \/ req_station_id req = Some 0
  \/ req_start_time req = None \/ req_end_time req = None ->
  run (post_booking userId req) env w
  = (Some (mkResponse 400 (ErrorBody "Missing required fields")), w).
Proof.
  intros Hmissing.
  destruct req as [[sid|] [s|] [e|] slot]; simpl in Hmissing; try reflexivity.
  destruct Hmissing as [H|[H|[H|H]]]; try discriminate.
  injection H as ->. reflexivity.
Qed.

Lemma missing_fields_rejected_witness :
  run (post_booking "user_b" (mkRequest (Some 0) (Some (clock 10 0)) (Some (clock 11 0))
                                        (JsNumber 1)))
      calm (world_of 2 [])
  = (Some (mkResponse 400 (ErrorBody "Missing required fields")), world_of 2 []).
Proof.
  apply (missing_fields_rejected calm (world_of 2 []) "user_b").
  right. left. reflexivity.
Defined.

Lemma find_station_none (sid : Z) (d : Database) :
  (forall st, In st (stations d) -> st_id st = sid -> st_status st <> "active") ->
  find_station sid d = [].
Proof.
  intros Hnone. unfold find_station.
  induction (stations d) as [|st sts IH]; simpl; [reflexivity|].
  destruct ((st_id st =? sid) && (st_status st =? "active")%string) eqn:Hst.
  - apply andb_true_iff in Hst. destruct Hst as [Hid Hactive].
    apply Z.eqb_eq in Hid. apply String.eqb_eq in Hactive.
    exfalso. apply (Hnone st); [left; reflexivity|assumption|assumption].
  - apply IH. intros st' Hin. apply Hnone. right. assumption.
Qed.

(** A request for a station that has no row, or whose rows are all in a
    status other than active, is answered 404 and leaves the world as it
    was; the transaction it opened is rolled back. *)
Theorem unknown_or_inactive_station_rejected (env : Env) (w : World) (userId : string)
        (sid s e : Z) (slot : JsValue) :
  txn w = None ->
  db_fault env QBegin = false ->
  db_fault env QSelectStation = false ->
  sid <> 0 ->
  (forall st, In st (stations (tables w)) -> st_id st = sid ->
              st_status st <> "active") ->
  run (post_booking userId (mkRequest (Some sid) (Some s) (Some e) slot)) env w
  = (Some (mkResponse 404 (ErrorBody "Station not found or inactive")), w).
Proof.
  intros Hidle Hbegin Hselect Hsid Hnone.
  apply find_station_none in Hnone. apply Z.eqb_neq in Hsid.
  destruct w as [d t n ev]. simpl in Hidle. subst t.
  unfold_handler. rewrite Hsid, Hbegin. simpl. rewrite Hselect. simpl.
  rewrite Hnone. simpl. reflexivity.
Qed.

Lemma unknown_or_inactive_station_rejected_witness :
  let w := mkWorld (mkDatabase [mkStation 1 4 25 "inactive"] [] []) None 0 [] in
  run (post_booking "user_b" (request (clock 10 0) (clock 11 0) JsUndefined)) calm w
  = (Some (mkResponse 404 (ErrorBody "Station not found or inactive")), w).
Proof.
  intros w.
  apply (unknown_or_inactive_station_rejected calm w "user_b" 1 (clock 10 0) (clock 11 0)
           JsUndefined); try reflexivity.
  - discriminate.
  - intros st [<-|[]] _. discriminate.
Defined.

Lemma conflict_count_nonneg (sid s e : Z) (d : Database) :
  0 <= conflict_count sid s e d.
Proof.
  unfold conflict_count. lia.
Qed.

(** A station whose [total_slots] is zero or negative admits nothing: every
    request for it is answered 409, whatever its window and slot, even with
    no booking at all on the station. *)
Theorem station_without_slots_refuses_all (env : Env) (w : World) (userId : string)
        (sid s e : Z) (slot : JsValue) (st : Station) (rest : list Station) :
  txn w = None ->
  db_fault env QBegin = false ->
  db_fault env QSelectStation = false ->
  db_fault env QCountConflicts = false ->
  sid <> 0 ->
  find_station sid (tables w) = st :: rest ->
  total_slots st <= 0 ->
  run (post_booking userId (mkRequest (Some sid) (Some s) (Some e) slot)) env w
  = (Some (mkResponse 409 (ErrorBody "No available slots for selected time")), w).
Proof.
  intros Hidle Hbegin Hselect Hcount Hsid Hst Hslots.
  apply (capacity_check_rejects env w userId sid s e slot st rest); try assumption.
  pose proof (conflict_count_nonneg sid s e (tables w)). lia.
Qed.

Lemma station_without_slots_refuses_all_witness :
  run (post_booking "user_b" (request (clock 10 0) (clock 11 0) JsUndefined))
      calm (world_of 0 [])
  = (Some (mkResponse 409 (ErrorBody "No available slots for selected time")),
     world_of 0 []).
Proof.
  apply (station_without_slots_refuses_all calm (world_of 0 []) "user_b" 1
           (clock 10 0) (clock 11 0) JsUndefined (station_with 0) []);
    try reflexivity; discriminate.
Defined.

(** ** POST /bookings: what a run leaves behind *)

(** Every run from an idle world either leaves the bookings as they were or
    appends one pending booking with the next id, for a station that was
    found below capacity; it never touches the stations or the power log,
    and it ends with no transaction open. *)
Lemma post_booking_outcome (env : Env) (w w' : World) (userId : string)
      (req : BookingRequest) (r : option Response) :
  txn w = None ->
  run (post_booking userId req) env w = (r, w') ->
  txn w' = None
  /\ stations (tables w') = stations (tables w)
  /\ power_logs (tables w') = power_logs (tables w)
  /\ booking_seq w <= booking_seq w'
  /\ (bookings (tables w') = bookings (tables w)
      \/ exists sid s e st rest sl,
          find_station sid (tables w) = st :: rest
          /\ conflict_count sid s e (tables w) < total_slots st
          /\ bookings (tables w')
             = bookings (tables w) ++ [new_booking w sid userId sl s e st]
          /\ booking_seq w' = booking_seq w + 1).
Proof.
  intros Hidle Hrun.
  destruct w as [d t n ev]. simpl in Hidle. subst t.
  unfold new_booking.
  destruct req as [[sid|] [s|] [e|] slot]; unfold_handler.
  all: walk.
  all: tidy; simpl.
  all: repeat (split; [first [reflexivity | lia]|]).
  all: try (left; reflexivity).
  all: right; exists sid, s, e;
    match goal with
    | H : find_station _ _ = ?st :: ?rest |- _ => exists st, rest
    end;
    eexists; split; [eassumption|]; split;
    [ match goal with
      | H : (_ >=? _) = false |- _ =>
          rewrite Z.geb_leb in H; apply Z.leb_gt in H; exact H
      end
    | split; reflexivity ].
Qed.

Lemma post_booking_created_world (env : Env) (w w' : World) (userId : string)
        (req : BookingRequest) (b : Booking) :
  txn w = None ->
  run (post_booking userId req) env w = (Some (mkResponse 201 (BookingBody b)), w') ->
  req_station_id req = Some (b_station_id b)
  /\ req_start_time req = Some (b_start_time b)
  /\ req_end_time req = Some (b_end_time b)
  /\ b_user_id b = userId
  /\ b_status b = "pending"
  /\ b_id b = booking_seq w + 1
  /\ w' = mkWorld (add_booking b (tables w)) None (b_id b)
                  (emitted w ++ [mkEvent (b_station_id b) "new_booking" b]).
Proof.
  intros Hidle Hrun.
  destruct w as [d t n ev]. simpl in Hidle. subst t.
  destruct req as [[sid|] [s|] [e|] slot]; unfold_handler.
  all: walk.
  all: tidy; try discriminate.
  all: simpl; repeat split; reflexivity.
Qed.

(** A 201 reply carries a booking made from the request and nothing else:
    the station and window asked for, the caller as owner, status pending,
    the next id of the sequence.  The world it leaves holds that one row
    more, one [new_booking] event more in the station's room, and no open
    transaction. *)
Theorem created_booking_is_as_requested (env : Env) (w w' : World) (userId : string)
        (req : BookingRequest) (b : Booking) :
  txn w = None ->
  run (post_booking userId req) env w = (Some (mkResponse 201 (BookingBody b)), w') ->
  req_station_id req = Some (b_station_id b)
  /\ req_start_time req = Some (b_start_time b)
  /\ req_end_time req = Some (b_end_time b)
  /\ b_user_id b = userId
  /\ b_status b = "pending"
  /\ b_id b = booking_seq w + 1
  /\ w' = mkWorld (add_booking b (tables w)) None (b_id b)
                  (emitted w ++ [mkEvent (b_station_id b) "new_booking" b]).
Proof.
  apply post_booking_created_world.
Qed.

Lemma created_booking_is_as_requested_witness :
  let b := mkBooking 1 1 "user_b" (Some 1) (clock 10 0) (clock 11 0) 2500 "pending" in
  let w := world_of 2 [] in
  request (clock 10 0) (clock 11 0) JsUndefined
  = mkRequest (Some (b_station_id b)) (Some (b_start_time b)) (Some (b_end_time b))
              JsUndefined
  /\ b_user_id b = "user_b" /\ b_status b = "pending" /\ b_id b = booking_seq w + 1.
Proof.
  intros b w.
  destruct (created_booking_is_as_requested calm w
              (mkWorld (add_booking b (tables w)) None 1 [mkEvent 1 "new_booking" b])
              "user_b" (request (clock 10 0) (clock 11 0) JsUndefined) b eq_refl)
    as (Hsid & Hs & He & Huser & Hstatus & Hid & _).
  - vm_compute. reflexivity.
  - repeat split; assumption || reflexivity.
Defined.

(** POST /bookings never leaves a transaction open: whatever fails, and
    wherever, the run ends committed or rolled back. *)
Theorem post_booking_closes_its_transaction (env : Env) (w : World) (userId : string)
        (req : BookingRequest) :
  txn w = None ->
  txn (snd (run (post_booking userId req) env w)) = None.
Proof.
  intros Hidle.
  destruct (run (post_booking userId req) env w) as [r w'] eqn:Hrun.
  apply (post_booking_outcome env w w' userId req r Hidle Hrun).
Qed.

Lemma post_booking_closes_its_transaction_witness :
  txn (snd (run (post_booking "user_b" (request (clock 10 0) (clock 11 0) JsUndefined))
                (mkEnv (fun q => match q with QCommit => true | _ => false end) false)
                (world_of 2 []))) = None.
Proof.
  apply (post_booking_closes_its_transaction
           (mkEnv (fun q => match q with QCommit => true | _ => false end) false)
           (world_of 2 []) "user_b").
  reflexivity.
Defined.

(** ** The status routes: what a run leaves behind *)

Lemma put_status_outcome (env : Env) (w w' : World) (userId : string) (id : Z)
      (status : string) (r : option Response) :
  txn w = None ->
  run (put_status userId id status) env w = (r, w') ->
  txn w' = None
  /\ stations (tables w') = stations (tables w)
  /\ booking_seq w' = booking_seq w
  /\ (bookings (tables w') = bookings (tables w)
      \/ valid_status status = true
         /\ bookings (tables w')
            = map (fun b => if (b_id b =? id) && (b_user_id b =? userId)%string
                            then set_status status b else b)
                  (bookings (tables w))).
Proof.
  intros Hidle Hrun.
  destruct w as [d t n ev]. simpl in Hidle. subst t.
  unfold_handler.
  destruct (valid_status status) eqn:Hvalid; simpl in Hrun.
  - destruct (db_fault env QUpdateStatus); simpl in Hrun.
    + tidy. simpl. repeat split; try reflexivity. left. reflexivity.
    + destruct (filter _ (bookings d)) as [|b rest]; simpl in Hrun.
      * tidy. simpl. repeat split; try reflexivity. right. split; reflexivity.
      * destruct (status =? "active")%string; simpl in Hrun;
          [destruct (db_fault env QInsertPowerLog); simpl in Hrun|];
          destruct (emit_throws env); simpl in Hrun; tidy; simpl;
          repeat split; try reflexivity; right; split; reflexivity.
  - tidy. simpl. repeat split; try reflexivity. left. reflexivity.
Qed.

Lemma admin_put_status_outcome (env : Env) (w w' : World) (id : Z) (status : string)
      (r : option Response) :
  txn w = None ->
  run (admin_put_status id status) env w = (r, w') ->
  txn w' = None
  /\ stations (tables w') = stations (tables w)
  /\ booking_seq w' = booking_seq w
  /\ (bookings (tables w') = bookings (tables w)
      \/ valid_status status = true
         /\ bookings (tables w')
            = map (fun b => if b_id b =? id then set_status status b else b)
                  (bookings (tables w))).
Proof.
  intros Hidle Hrun.
  destruct w as [d t n ev]. simpl in Hidle. subst t.
  unfold_handler.
  destruct (valid_status status) eqn:Hvalid; simpl in Hrun.
  - destruct (db_fault env QUpdateStatus); simpl in Hrun.
    + tidy. simpl. repeat split; try reflexivity. left. reflexivity.
    + destruct (filter _ (bookings d)) as [|b rest]; simpl in Hrun.
      * tidy. simpl. repeat split; try reflexivity. right. split; reflexivity.
      * destruct (emit_throws env); simpl in Hrun; tidy; simpl;
          repeat split; try reflexivity; right; split; reflexivity.
  - tidy. simpl. repeat split; try reflexivity. left. reflexivity.
Qed.

Lemma delete_booking_outcome (env : Env) (w w' : World) (userId : string) (id : Z)
      (r : option Response) :
  txn w = None ->
  run (delete_booking userId id) env w = (r, w') ->
  txn w' = None
  /\ stations (tables w') = stations (tables w)
  /\ power_logs (tables w') = power_logs (tables w)
  /\ booking_seq w' = booking_seq w
  /\ (bookings (tables w') = bookings (tables w)
      \/ bookings (tables w')
         = map (fun b => if (b_id b =? id) && (b_user_id b =? userId)%string
                            && ((b_status b =? "pending")%string
                                || (b_status b =? "active")%string)
                         then set_status "cancelled" b else b)
               (bookings (tables w))).
Proof.
  intros Hidle Hrun.
  destruct w as [d t n ev]. simpl in Hidle. subst t.
  unfold_handler.
  destruct (db_fault env QUpdateStatus); simpl in Hrun.
  - tidy. simpl. repeat split; try reflexivity. left. reflexivity.
  - destruct (filter _ (bookings d)) as [|b rest]; simpl in Hrun.
    + tidy. simpl. repeat split; try reflexivity. right. reflexivity.
    + destruct (emit_throws env); simpl in Hrun; tidy; simpl;
        repeat split; try reflexivity; right; reflexivity.
Qed.

(** A status update rewrites the status column and nothing else. *)
Lemma set_status_columns (status : string) (b : Booking) :
  b_id (set_status status b) = b_id b
  /\ b_station_id (set_status status b) = b_station_id b
  /\ b_user_id (set_status status b) = b_user_id b
  /\ b_slot_number (set_status status b) = b_slot_number b
  /\ b_start_time (set_status status b) = b_start_time b
  /\ b_end_time (set_status status b) = b_end_time b
  /\ b_total_cost (set_status status b) = b_total_cost b.
Proof.
  repeat split; reflexivity.
Qed.




(** ** Capacity *)

Lemma find_station_stations (sid : Z) (d d' : Database) :
  stations d' = stations d -> find_station sid d' = find_station sid d.
Proof.
  unfold find_station. intros ->. reflexivity.
Qed.

Lemma load_app (sid t : Z) (bs : list Booking) (b : Booking) :
  load sid t (bs ++ [b])
  = Nat.add (load sid t bs)
            (if (b_station_id b =? sid) && holds_slot b
                && between t (b_start_time b) (b_end_time b)
             then 1%nat else 0%nat).
Proof.
  unfold load. rewrite filter_app, length_app. simpl.
  destruct ((b_station_id b =? sid) && holds_slot b
            && between t (b_start_time b) (b_end_time b)); reflexivity.
Qed.

(** The bookings that hold an instant of a window are among those the
    conflict count counts for that window. *)
Lemma load_le_conflict_count (sid s e t : Z) (d : Database) :
  s <= t <= e ->
  Z.of_nat (load sid t (bookings d)) <= conflict_count sid s e d.
Proof.
  intros Ht. unfold load, conflict_count.
  apply inj_le, filter_length_le. intros b.
  rewrite !andb_true_iff, between_spec, conflict_window_spec.
  intros [Hb Hin]. split; [assumption|]. lia.
Qed.

Lemma load_release (sid t : Z) (p : Booking -> bool) (status : string)
      (bs : list Booking) :
  status <> "active" -> status <> "pending" ->
  (load sid t (map (fun b => if p b then set_status status b else b) bs)
   <= load sid t bs)%nat.
Proof.
  intros Hactive Hpending. unfold load.
  induction bs as [|b bs IH]; simpl; [lia|].
  destruct (p b); simpl.
  - unfold holds_slot at 1. simpl.
    apply String.eqb_neq in Hactive, Hpending. rewrite Hactive, Hpending.
    rewrite andb_false_r. simpl.
    destruct ((b_station_id b =? sid) && holds_slot b
              && between t (b_start_time b) (b_end_time b)); simpl; lia.
  - destruct ((b_station_id b =? sid) && holds_slot b
              && between t (b_start_time b) (b_end_time b)); simpl; lia.
Qed.

Lemma valid_status_releases (status : string) :
  valid_status status = true -> status <> "active" ->
  status <> "active" /\ status <> "pending".
Proof.
  intros Hvalid Hactive. apply valid_status_cases in Hvalid.
  split; [assumption|]. destruct Hvalid as [->|[->| ->]]; discriminate.
Qed.

Lemma post_booking_keeps_capacity (env : Env) (w : World) (userId : string)
      (req : BookingRequest) :
  txn w = None ->
  within_capacity (tables w) ->
  within_capacity (tables (snd (run (post_booking userId req) env w))).
Proof.
  intros Hidle Hcap.
  destruct (run (post_booking userId req) env w) as [r w'] eqn:Hrun. simpl.
  destruct (post_booking_outcome env w w' userId req r Hidle Hrun)
    as (_ & Hst & _ & _ & [Hb|(sid & s & e & st & rest & sl & Hfound & Hroom & Hb & _)]).
  - intros sid' st' rest' t Hfound'.
    rewrite (find_station_stations sid' (tables w) (tables w') Hst) in Hfound'.
    rewrite Hb. now apply (Hcap sid' st' rest' t).
  - intros sid' st' rest' t Hfound'.
    rewrite (find_station_stations sid' (tables w) (tables w') Hst) in Hfound'.
    rewrite Hb, load_app. simpl.
    pose proof (Hcap sid' st' rest' t Hfound') as Hbefore.
    destruct ((sid =? sid') && holds_slot (new_booking w sid userId sl s e st)
              && between t s e) eqn:Hnew; [|lia].
    apply andb_true_iff in Hnew. destruct Hnew as [Hnew Hin].
    apply andb_true_iff in Hnew. destruct Hnew as [Hsid _].
    apply Z.eqb_eq in Hsid. subst sid'. apply between_spec in Hin.
    rewrite Hfound in Hfound'. injection Hfound' as <- <-.
    pose proof (load_le_conflict_count sid s e t (tables w) Hin). lia.
Qed.

Lemma releasing_map_keeps_capacity (d d' : Database) (p : Booking -> bool)
      (status : string) :
  status <> "active" -> status <> "pending" ->
  stations d' = stations d ->
  bookings d' = map (fun b => if p b then set_status status b else b) (bookings d) ->
  within_capacity d -> within_capacity d'.
Proof.
  intros Hactive Hpending Hst Hb Hcap sid st rest t Hfound.
  rewrite (find_station_stations sid d d' Hst) in Hfound.
  rewrite Hb.
  pose proof (load_release sid t p status (bookings d) Hactive Hpending).
  pose proof (Hcap sid st rest t Hfound). lia.
Qed.

Lemma unchanged_bookings_keep_capacity (d d' : Database) :
  stations d' = stations d -> bookings d' = bookings d ->
  within_capacity d -> within_capacity d'.
Proof.
  intros Hst Hb Hcap sid st rest t Hfound.
  rewrite (find_station_stations sid d d' Hst) in Hfound.
  rewrite Hb. now apply (Hcap sid st rest t).
Qed.

Lemma admitting_call_keeps_capacity (env : Env) (w : World) (h : Handler unit) :
  admitting_call h ->
  txn w = None ->
  within_capacity (tables w) ->
  within_capacity (tables (snd (run h env w))) /\ txn (snd (run h env w)) = None.
Proof.
  intros Hcall Hidle Hcap. destruct Hcall as [u req|u id status Hs|id status Hs|u id].
  - split; [now apply post_booking_keeps_capacity|].
    destruct (run (post_booking u req) env w) as [r w'] eqn:Hrun.
    apply (post_booking_outcome env w w' u req r Hidle Hrun).
  - destruct (run (put_status u id status) env w) as [r w'] eqn:Hrun. simpl.
    destruct (put_status_outcome env w w' u id status r Hidle Hrun)
      as (Htxn & Hst & _ & [Hb|[Hvalid Hb]]); (split; [|assumption]).
    + now apply (unchanged_bookings_keep_capacity (tables w)).
    + destruct (valid_status_releases status Hvalid Hs) as [Ha Hp].
      apply (releasing_map_keeps_capacity (tables w) (tables w')
               (fun b => (b_id b =? id) && (b_user_id b =? u)%string) status);
        assumption.
  - destruct (run (admin_put_status id status) env w) as [r w'] eqn:Hrun. simpl.
    destruct (admin_put_status_outcome env w w' id status r Hidle Hrun)
      as (Htxn & Hst & _ & [Hb|[Hvalid Hb]]); (split; [|assumption]).
    + now apply (unchanged_bookings_keep_capacity (tables w)).
    + destruct (valid_status_releases status Hvalid Hs) as [Ha Hp].
      apply (releasing_map_keeps_capacity (tables w) (tables w')
               (fun b => b_id b =? id) status);
        assumption.
  - destruct (run (delete_booking u id) env w) as [r w'] eqn:Hrun. simpl.
    destruct (delete_booking_outcome env w w' u id r Hidle Hrun)
      as (Htxn & Hst & _ & _ & [Hb|Hb]); (split; [|assumption]).
    + now apply (unchanged_bookings_keep_capacity (tables w)).
    + apply (releasing_map_keeps_capacity (tables w) (tables w')
               (fun b => (b_id b =? id) && (b_user_id b =? u)%string
                         && ((b_status b =? "pending")%string
                             || (b_status b =? "active")%string))
               "cancelled");
        try assumption; discriminate.
Qed.

(** Served one after another, bookings, cancellations and status updates to
    anything but active never load a station beyond its [total_slots]:
    if at every instant the pending and active bookings of each active
    station number at most [total_slots] before, they do so after, whatever
    queries fail on the way. *)
Theorem capacity_kept_without_activation (calls : list (Env * Handler unit))
        (w : World) :
  Forall (fun c => admitting_call (snd c)) calls ->
  txn w = None ->
  within_capacity (tables w) ->
  within_capacity (tables (serve calls w)) /\ txn (serve calls w) = None.
Proof.
  intros Hcalls. revert w.
  induction Hcalls as [|[env h] calls Hcall _ IH]; intros w Hidle Hcap.
  - split; assumption.
  - simpl in Hcall. unfold serve. simpl.
    destruct (admitting_call_keeps_capacity env w h Hcall Hidle Hcap) as [Hcap' Hidle'].
    now apply IH.
Qed.

Lemma within_capacity_empty (sts : list Station) :
  (forall st, In st sts -> 0 <= total_slots st) ->
  within_capacity (mkDatabase sts [] []).
Proof.
  intros Hpos sid st rest t Hfound. simpl.
  apply Hpos. unfold find_station in Hfound. simpl in Hfound.
  assert (Hin : In st (filter (fun s => (st_id s =? sid)
                                        && (st_status s =? "active")%string) sts)).
  { rewrite Hfound. left. reflexivity. }
  apply filter_In in Hin. tauto.
Qed.

Lemma capacity_kept_without_activation_witness :
  let calls :=
    [(calm, post_booking "user_a" (request (clock 10 0) (clock 11 0) JsUndefined));
     (socket_down, post_booking "user_b" (request (clock 10 30) (clock 11 30) (JsNumber 1)));
     (calm, delete_booking "user_a" 1);
     (calm, post_booking "user_c" (request (clock 10 0) (clock 10 0) JsNull))] in
  within_capacity (tables (serve calls (world_of 2 [])))
  /\ txn (serve calls (world_of 2 [])) = None.
Proof.
  intros calls.
  apply (capacity_kept_without_activation calls (world_of 2 [])).
  - repeat constructor.
  - reflexivity.
  - apply within_capacity_empty. intros st [<-|[]]. simpl. lia.
Defined.

(** ** Booking ids *)

Lemma NoDup_snoc {A} (l : list A) (x : A) :
  NoDup l -> ~ In x l -> NoDup (l ++ [x]).
Proof.
  intros Hl Hx. induction Hl as [|y l Hy Hl IH]; simpl.
  - constructor; [intros []|constructor].
  - constructor.
    + rewrite in_app_iff. intros [Hin|[->|[]]]; [now apply Hy|].
      apply Hx. left. reflexivity.
    + apply IH. intros Hin. apply Hx. right. assumption.
Qed.

Lemma map_b_id_status (p : Booking -> bool) (status : string) (bs : list Booking) :
  map b_id (map (fun b => if p b then set_status status b else b) bs) = map b_id bs.
Proof.
  rewrite map_map. apply map_ext. intros b. destruct (p b); reflexivity.
Qed.

Lemma well_keyed_status_map (w w' : World) (p : Booking -> bool) (status : string) :
  booking_seq w' = booking_seq w ->
  bookings (tables w')
  = map (fun b => if p b then set_status status b else b) (bookings (tables w)) ->
  well_keyed w -> well_keyed w'.
Proof.
  intros Hseq Hb [Hnodup Hbelow]. unfold well_keyed.
  rewrite Hb, map_b_id_status, Hseq. split; [assumption|].
  intros b Hin. apply in_map_iff in Hin. destruct Hin as (b0 & <- & Hin0).
  pose proof (Hbelow b0 Hin0). destruct (p b0); simpl; assumption.
Qed.

Lemma well_keyed_unchanged (w w' : World) :
  booking_seq w <= booking_seq w' ->
  bookings (tables w') = bookings (tables w) ->
  well_keyed w -> well_keyed w'.
Proof.
  intros Hseq Hb [Hnodup Hbelow]. unfold well_keyed. rewrite Hb.
  split; [assumption|]. intros b Hin. pose proof (Hbelow b Hin). lia.
Qed.

Lemma booking_call_keeps_keys (env : Env) (w : World) (h : Handler unit) :
  booking_call h ->
  txn w = None ->
  well_keyed w ->
  well_keyed (snd (run h env w)) /\ txn (snd (run h env w)) = None.
Proof.
  intros Hcall Hidle Hkeys. destruct Hcall as [u req|u id status|id status|u id].
  - destruct (run (post_booking u req) env w) as [r w'] eqn:Hrun. simpl.
    destruct (post_booking_outcome env w w' u req r Hidle Hrun)
      as (Htxn & _ & _ & Hseq
          & [Hb|(sid & s & e & st & rest & sl & _ & _ & Hb & Hnext)]);
      (split; [|assumption]).
    + now apply (well_keyed_unchanged w).
    + destruct Hkeys as [Hnodup Hbelow]. unfold well_keyed.
      rewrite Hb, map_app. simpl. split.
      * apply NoDup_snoc; [assumption|].
        intros Hin. apply in_map_iff in Hin. destruct Hin as (b0 & Hid & Hin0).
        pose proof (Hbelow b0 Hin0). lia.
      * intros b Hin. apply in_app_iff in Hin. destruct Hin as [Hin|[<-|[]]].
        -- pose proof (Hbelow b Hin). lia.
        -- simpl. lia.
  - destruct (run (put_status u id status) env w) as [r w'] eqn:Hrun. simpl.
    destruct (put_status_outcome env w w' u id status r Hidle Hrun)
      as (Htxn & _ & Hseq & [Hb|[_ Hb]]); (split; [|assumption]).
    + apply (well_keyed_unchanged w); [lia|assumption|assumption].
    + now apply (well_keyed_status_map w w'
                   (fun b => (b_id b =? id) && (b_user_id b =? u)%string) status).
  - destruct (run (admin_put_status id status) env w) as [r w'] eqn:Hrun. simpl.
    destruct (admin_put_status_outcome env w w' id status r Hidle Hrun)
      as (Htxn & _ & Hseq & [Hb|[_ Hb]]); (split; [|assumption]).
    + apply (well_keyed_unchanged w); [lia|assumption|assumption].
    + now apply (well_keyed_status_map w w' (fun b => b_id b =? id) status).
  - destruct (run (delete_booking u id) env w) as [r w'] eqn:Hrun. simpl.
    destruct (delete_booking_outcome env w w' u id r Hidle Hrun)
      as (Htxn & _ & _ & Hseq & [Hb|Hb]); (split; [|assumption]).
    + apply (well_keyed_unchanged w); [lia|assumption|assumption].
    + now apply (well_keyed_status_map w w'
                   (fun b => (b_id b =? id) && (b_user_id b =? u)%string
                             && ((b_status b =? "pending")%string
                                 || (b_status b =? "active")%string))
                   "cancelled").
Qed.

(** Booking ids stay pairwise distinct, and no id is ever handed out twice:
    through any sequence of calls of the booking routes and of the admin
    override, under any failures, every stored id stays at or below the
    sequence -- also when an INSERT is rolled back after it drew its id. *)
Theorem booking_ids_stay_unique (calls : list (Env * Handler unit)) (w : World) :
  Forall (fun c => booking_call (snd c)) calls ->
  txn w = None ->
  well_keyed w ->
  well_keyed (serve calls w) /\ txn (serve calls w) = None.
Proof.
  intros Hcalls. revert w.
  induction Hcalls as [|[env h] calls Hcall _ IH]; intros w Hidle Hkeys.
  - split; assumption.
  - simpl in Hcall. unfold serve. simpl.
    destruct (booking_call_keeps_keys env w h Hcall Hidle Hkeys) as [Hkeys' Hidle'].
    now apply IH.
Qed.

Lemma booking_ids_stay_unique_witness :
  let calls :=
    [(mkEnv (fun q => match q with QCommit => true | _ => false end) false,
      post_booking "user_a" (request (clock 10 0) (clock 11 0) JsUndefined));
     (calm, post_booking "user_b" (request (clock 10 0) (clock 11 0) JsUndefined));
     (calm, put_status "user_b" 2 "active");
     (calm, admin_put_status 2 "completed")] in
  well_keyed (serve calls (world_of 2 []))
  /\ txn (serve calls (world_of 2 [])) = None.
Proof.
  intros calls.
  apply (booking_ids_stay_unique calls (world_of 2 [])).
  - repeat constructor.
  - reflexivity.
  - split; [constructor|intros b []].
Defined.

(** ** Ownership *)

Lemma filter_map_outside (q p : Booking -> bool) (f : Booking -> Booking)
      (bs : list Booking) :
  (forall b, p b = true -> q b = false) ->
  (forall b, q (f b) = q b) ->
  filter q (map (fun b => if p b then f b else b) bs) = filter q bs.
Proof.
  intros Hout Hkeep. induction bs as [|b bs IH]; simpl; [reflexivity|].
  destruct (p b) eqn:Hp.
  - rewrite Hkeep, (Hout b Hp). assumption.
  - destruct (q b); rewrite IH; reflexivity.
Qed.

(** The owner's routes reach one booking only.  Whatever PUT
    /bookings/:id/status or DELETE /bookings/:id is asked by a user, and
    whatever fails, every row that is not that user's booking of that id --
    another user's booking with the same id included -- is afterwards
    exactly as it was. *)
Theorem owner_routes_reach_own_booking_only (env : Env) (w : World)
        (userId : string) (id : Z) (status : string) (h : Handler unit) :
  txn w = None ->
  h = put_status userId id status \/ h = delete_booking userId id ->
  filter (fun b => negb ((b_id b =? id) && (b_user_id b =? userId)%string))
         (bookings (tables (snd (run h env w))))
  = filter (fun b => negb ((b_id b =? id) && (b_user_id b =? userId)%string))
           (bookings (tables w)).
Proof.
  intros Hidle [-> | ->].
  - destruct (run (put_status userId id status) env w) as [r w'] eqn:Hrun. simpl.
    destruct (put_status_outcome env w w' userId id status r Hidle Hrun)
      as (_ & _ & _ & [Hb|[_ Hb]]); rewrite Hb; [reflexivity|].
    apply (filter_map_outside _ (fun b => (b_id b =? id) && (b_user_id b =? userId)%string)
             (set_status status)).
    + intros b Hp. rewrite Hp. reflexivity.
    + intros b. reflexivity.
  - destruct (run (delete_booking userId id) env w) as [r w'] eqn:Hrun. simpl.
    destruct (delete_booking_outcome env w w' userId id r Hidle Hrun)
      as (_ & _ & _ & _ & [Hb|Hb]); rewrite Hb; [reflexivity|].
    apply (filter_map_outside _
             (fun b => (b_id b =? id) && (b_user_id b =? userId)%string
                       && ((b_status b =? "pending")%string
                           || (b_status b =? "active")%string))
             (set_status "cancelled")).
    + intros b Hp. apply andb_true_iff in Hp. destruct Hp as [Hp _].
      rewrite Hp. reflexivity.
    + intros b. reflexivity.
Qed.

Lemma owner_routes_reach_own_booking_only_witness :
  let mine := held 1 1 (clock 10 0) (clock 11 0) "pending" in
  let other := mkBooking 2 1 "user_b" (Some 2) (clock 10 0) (clock 11 0) 2500 "pending" in
  let w := world_of 2 [mine; other] in
  filter (fun b => negb ((b_id b =? 2) && (b_user_id b =? "user_a")%string))
         (bookings (tables (snd (run (delete_booking "user_a" 2) calm w))))
  = filter (fun b => negb ((b_id b =? 2) && (b_user_id b =? "user_a")%string))
           (bookings (tables w)).
Proof.
  intros mine other w.
  apply (owner_routes_reach_own_booking_only calm w "user_a" 2 ""
           (delete_booking "user_a" 2)).
  - reflexivity.
  - right. reflexivity.
Defined.

(** ** DELETE /bookings/:id *)

Lemma delete_booking_bookings (env : Env) (w : World) (userId : string) (id : Z) :
  txn w = None ->
  db_fault env QUpdateStatus = false ->
  bookings (tables (snd (run (delete_booking userId id) env w)))
  = cancel_rows userId id (bookings (tables w)).
Proof.
  intros Hidle Hupdate.
  destruct w as [d t n ev]. simpl in Hidle. subst t.
  unfold cancel_rows, cancellable. unfold_handler. rewrite Hupdate. simpl.
  destruct (filter _ (bookings d)) as [|b rest]; simpl; [reflexivity|].
  destruct (emit_throws env); reflexivity.
Qed.

Lemma cancel_rows_none (userId : string) (id : Z) (bs : list Booking) :
  filter (cancellable userId id) bs = [] -> cancel_rows userId id bs = bs.
Proof.
  unfold cancel_rows. induction bs as [|b bs IH]; simpl; [reflexivity|].
  destruct (cancellable userId id b); [discriminate|].
  intros Hnone. f_equal. now apply IH.
Qed.

Lemma delete_booking_refuses (env : Env) (w : World) (userId : string) (id : Z) :
  txn w = None ->
  db_fault env QUpdateStatus = false ->
  filter (cancellable userId id) (bookings (tables w)) = [] ->
  run (delete_booking userId id) env w
  = (Some (mkResponse 404 (ErrorBody "Booking not found or cannot be cancelled")), w).
Proof.
  intros Hidle Hupdate Hnone.
  destruct w as [[sts bs pls] t n ev]. simpl in Hidle, Hnone. subst t.
  pose proof (cancel_rows_none userId id bs Hnone) as Hsame.
  unfold_handler. rewrite Hupdate. simpl.
  unfold cancel_rows, cancellable in Hsame, Hnone.
  rewrite Hnone. simpl. unfold update_where. simpl. rewrite Hsame. reflexivity.
Qed.

(** DELETE /bookings/:id cancels on one condition only: the caller owns a
    pending or active booking with that id.  Failing that -- no such id,
    someone else's booking, a completed or already cancelled one -- the
    reply is 404 and the world is as before; otherwise the reply is 200,
    that booking is cancelled, and one [cancellation] event goes to its
    station's room. *)
Theorem cancel_needs_own_live_booking (env : Env) (w : World) (userId : string)
        (id : Z) :
  txn w = None ->
  db_fault env QUpdateStatus = false ->
  emit_throws env = false ->
  (filter (cancellable userId id) (bookings (tables w)) = [] ->
   run (delete_booking userId id) env w
   = (Some (mkResponse 404 (ErrorBody "Booking not found or cannot be cancelled")), w))
  /\ (forall b rest,
         filter (cancellable userId id) (bookings (tables w)) = b :: rest ->
         run (delete_booking userId id) env w
         = (Some (mkResponse 200 (MessageBody "Booking cancelled successfully")),
            mkWorld (mkDatabase (stations (tables w))
                                (cancel_rows userId id (bookings (tables w)))
                                (power_logs (tables w)))
                    None (booking_seq w)
                    (emitted w ++ [mkEvent (b_station_id b) "cancellation"
                                           (set_status "cancelled" b)]))).
Proof.
  intros Hidle Hupdate Hemit. split.
  - now apply delete_booking_refuses.
  - destruct w as [[sts bs pls] t n ev]. simpl in Hidle. subst t.
    intros b rest Hsome. simpl in Hsome. unfold cancellable in Hsome.
    unfold_handler. rewrite Hupdate. simpl.
    rewrite Hsome. simpl. rewrite Hemit. reflexivity.
Qed.

Lemma cancel_needs_own_live_booking_witness :
  let w := world_of 2 [held 1 1 (clock 10 0) (clock 11 0) "cancelled";
                       mkBooking 2 1 "user_b" (Some 2) (clock 10 0) (clock 11 0)
                                 2500 "pending"] in
  run (delete_booking "user_a" 1) calm w
  = (Some (mkResponse 404 (ErrorBody "Booking not found or cannot be cancelled")), w)
  /\ run (delete_booking "user_a" 2) calm w
     = (Some (mkResponse 404 (ErrorBody "Booking not found or cannot be cancelled")), w).
Proof.
  intros w. split.
  - apply (cancel_needs_own_live_booking calm w "user_a" 1); reflexivity.
  - apply (cancel_needs_own_live_booking calm w "user_a" 2); reflexivity.
Defined.

Lemma cancel_rows_leave_nothing (userId : string) (id : Z) (bs : list Booking) :
  filter (cancellable userId id) (cancel_rows userId id bs) = [].
Proof.
  unfold cancel_rows. induction bs as [|b bs IH]; simpl; [reflexivity|].
  destruct (cancellable userId id b) eqn:Hb.
  - unfold cancellable at 1. simpl. rewrite andb_false_r. assumption.
  - rewrite Hb. assumption.
Qed.

(** Cancelling twice: once DELETE /bookings/:id has run (its UPDATE not
    failing), the same call again is answered 404 and changes nothing. *)
Theorem second_cancel_is_refused (env1 env2 : Env) (w : World) (userId : string)
        (id : Z) :
  txn w = None ->
  db_fault env1 QUpdateStatus = false ->
  db_fault env2 QUpdateStatus = false ->
  let w1 := snd (run (delete_booking userId id) env1 w) in
  run (delete_booking userId id) env2 w1
  = (Some (mkResponse 404 (ErrorBody "Booking not found or cannot be cancelled")), w1).
Proof.
  intros Hidle H1 H2 w1.
  apply delete_booking_refuses; [|assumption|].
  - subst w1. destruct (run (delete_booking userId id) env1 w) as [r w'] eqn:Hrun.
    apply (delete_booking_outcome env1 w w' userId id r Hidle Hrun).
  - subst w1. rewrite delete_booking_bookings by assumption.
    apply cancel_rows_leave_nothing.
Qed.

Lemma second_cancel_is_refused_witness :
  let w := world_of 2 [held 1 1 (clock 10 0) (clock 11 0) "active"] in
  let w1 := snd (run (delete_booking "user_a" 1) calm w) in
  run (delete_booking "user_a" 1) socket_down w1
  = (Some (mkResponse 404 (ErrorBody "Booking not found or cannot be cancelled")), w1).
Proof.
  intros w.
  apply (second_cancel_is_refused calm socket_down w "user_a" 1); reflexivity.
Defined.

(** ** Booking, then cancelling *)

Lemma cancel_rows_app (userId : string) (id : Z) (bs bs' : list Booking) :
  cancel_rows userId id (bs ++ bs') = cancel_rows userId id bs ++ cancel_rows userId id bs'.
Proof.
  unfold cancel_rows. apply map_app.
Qed.

Lemma cancel_rows_other_ids (userId : string) (id : Z) (bs : list Booking) :
  (forall b, In b bs -> b_id b <> id) -> cancel_rows userId id bs = bs.
Proof.
  intros Hother. apply cancel_rows_none.
  induction bs as [|b bs IH]; simpl; [reflexivity|].
  assert (Hb : cancellable userId id b = false).
  { unfold cancellable.
    assert (Hne : b_id b <> id) by (apply Hother; left; reflexivity).
    apply Z.eqb_neq in Hne. rewrite Hne. reflexivity. }
  rewrite Hb. apply IH. intros b' Hin. apply Hother. right. assumption.
Qed.

Lemma conflict_rows_released (sid s e : Z) (bs : list Booking) (b : Booking) :
  holds_slot b = false ->
  conflict_rows sid s e (bs ++ [b]) = conflict_rows sid s e bs.
Proof.
  intros Hb. unfold conflict_rows. rewrite filter_app. simpl.
  rewrite Hb, andb_false_r. simpl. apply app_nil_r.
Qed.

Lemma used_rows_released (sid s e : Z) (bs : list Booking) (b : Booking) :
  holds_slot b = false ->
  used_rows sid s e (bs ++ [b]) = used_rows sid s e bs.
Proof.
  intros Hb. unfold used_rows. rewrite filter_app. simpl.
  rewrite Hb, andb_false_r. simpl. apply app_nil_r.
Qed.

(** Booking and then cancelling gives the capacity back.  When a booking
    has been created (201) and its owner then cancels it, the table holds
    the old rows and the new one as cancelled, and for every station and
    window the conflict count and the used-slot list are what they were
    before the booking was made. *)
Theorem cancelled_booking_frees_its_place (env1 env2 : Env) (w w1 : World)
        (userId : string) (req : BookingRequest) (b : Booking) :
  txn w = None ->
  well_keyed w ->
  run (post_booking userId req) env1 w = (Some (mkResponse 201 (BookingBody b)), w1) ->
  db_fault env2 QUpdateStatus = false ->
  let w2 := snd (run (delete_booking userId (b_id b)) env2 w1) in
  bookings (tables w2) = bookings (tables w) ++ [set_status "cancelled" b]
  /\ forall sid s e,
      conflict_count sid s e (tables w2) = conflict_count sid s e (tables w)
      /\ used_slots sid s e (tables w2) = used_slots sid s e (tables w).
Proof.
  intros Hidle [_ Hbelow] Hrun Hupdate w2.
  destruct (post_booking_created_world env1 w w1 userId req b Hidle Hrun)
    as (_ & _ & _ & Huser & Hstatus & Hid & Hw1).
  assert (Hb2 : bookings (tables w2) = bookings (tables w) ++ [set_status "cancelled" b]).
  { subst w2. rewrite delete_booking_bookings; [|subst w1; reflexivity|assumption].
    subst w1. simpl. rewrite cancel_rows_app. f_equal.
    - apply cancel_rows_other_ids. intros b0 Hin Heq.
      pose proof (Hbelow b0 Hin). lia.
    - unfold cancel_rows, cancellable. simpl.
      rewrite Z.eqb_refl, Huser, String.eqb_refl, Hstatus. reflexivity. }
  split; [assumption|].
  intros sid s e. unfold conflict_count, used_slots. rewrite Hb2.
  rewrite conflict_rows_released, used_rows_released by reflexivity.
  split; reflexivity.
Qed.

Lemma cancelled_booking_frees_its_place_witness :
  let w := world_of 1 [] in
  let b := mkBooking 1 1 "user_b" (Some 1) (clock 10 0) (clock 11 0) 2500 "pending" in
  let w1 := mkWorld (add_booking b (tables w)) None 1 [mkEvent 1 "new_booking" b] in
  let w2 := snd (run (delete_booking "user_b" (b_id b)) calm w1) in
  bookings (tables w2) = bookings (tables w) ++ [set_status "cancelled" b]
  /\ forall sid s e,
      conflict_count sid s e (tables w2) = conflict_count sid s e (tables w)
      /\ used_slots sid s e (tables w2) = used_slots sid s e (tables w).
Proof.
  intros w b w1.
  apply (cancelled_booking_frees_its_place calm calm w w1 "user_b"
           (request (clock 10 0) (clock 11 0) JsUndefined) b).
  - reflexivity.
  - split; [constructor|intros b0 []].
  - vm_compute. reflexivity.
  - reflexivity.
Defined.

(** ** Status updates: replies and events *)

(** A status update that finds no booking of that id owned by the caller --
    none at all, or only other users' -- is answered 404 and leaves the
    world as it was: no status changes, no power-log entry, no event. *)
Theorem status_update_of_foreign_booking_refused (env : Env) (w : World)
        (userId : string) (id : Z) (status : string) :
  txn w = None ->
  db_fault env QUpdateStatus = false ->
  valid_status status = true ->
  (forall b, In b (bookings (tables w)) -> b_id b = id -> b_user_id b <> userId) ->
  run (put_status userId id status) env w
  = (Some (mkResponse 404 (ErrorBody "Booking not found")), w).
Proof.
  intros Hidle Hupdate Hvalid Hforeign.
  destruct w as [[sts bs pls] t n ev]. simpl in Hidle, Hforeign. subst t.
  assert (Hnone : forall b, In b bs ->
                    (b_id b =? id) && (b_user_id b =? userId)%string = false).
  { intros b Hin. destruct (b_id b =? id) eqn:Hid; [|reflexivity].
    apply Z.eqb_eq in Hid. simpl. apply String.eqb_neq. now apply Hforeign. }
  assert (Hfilter : filter (fun b => (b_id b =? id) && (b_user_id b =? userId)%string) bs
                    = []).
  { clear Hforeign. induction bs as [|b bs IH]; simpl; [reflexivity|].
    rewrite (Hnone b) by (left; reflexivity).
    apply IH. intros b' Hin. apply Hnone. right. assumption. }
  assert (Hmap : map (fun b => if (b_id b =? id) && (b_user_id b =? userId)%string
                               then set_status status b else b) bs = bs).
  { clear Hforeign Hfilter. induction bs as [|b bs IH]; simpl; [reflexivity|].
    rewrite (Hnone b) by (left; reflexivity). f_equal.
    apply IH. intros b' Hin. apply Hnone. right. assumption. }
  unfold_handler. rewrite Hvalid. simpl. rewrite Hupdate. simpl.
  rewrite Hfilter. simpl. unfold update_where. simpl. rewrite Hmap. reflexivity.
Qed.

Lemma status_update_of_foreign_booking_refused_witness :
  let w := world_of 2 [held 1 1 (clock 10 0) (clock 11 0) "pending"] in
  run (put_status "user_b" 1 "cancelled") calm w
  = (Some (mkResponse 404 (ErrorBody "Booking not found")), w).
Proof.
  intros w.
  apply (status_update_of_foreign_booking_refused calm w "user_b" 1 "cancelled");
    try reflexivity.
  intros b [<-|[]] _. discriminate.
Defined.

Lemma put_status_power_logs_witness :
  let b := held 1 1 (clock 10 0) (clock 11 0) "active" in
  let w := world_of 2 [b] in
  power_logs (tables (snd (run (put_status "user_a" 1 "active") socket_down w)))
  = [mkPowerLog 1 1 0]
  /\ power_logs (tables (snd (run (put_status "user_a" 1 "completed") calm w))) = [].
Proof.
  intros b w. split.
  - rewrite (put_status_power_logs socket_down w "user_a" 1 "active").
    + reflexivity.
    + reflexivity.
    + intros q. reflexivity.
  - rewrite (put_status_power_logs calm w "user_a" 1 "completed").
    + reflexivity.
    + reflexivity.
    + intros q. reflexivity.
Defined.

Lemma half_open_overlap_is_counted_witness :
  conflict_window (clock 10 30) (clock 11 30)
                  (held 1 1 (clock 10 0) (clock 11 0) "pending") = true.
Proof.
  apply (half_open_overlap_is_counted (clock 10 30) (clock 11 30)
           (held 1 1 (clock 10 0) (clock 11 0) "pending")).
  - vm_compute. discriminate.
  - vm_compute. discriminate.
  - reflexivity.
Defined.

(** ** The window test and the cost, further *)

(** Whether two well-formed bookings conflict does not depend on which of
    them is the request and which the stored row. *)
Theorem conflict_window_symmetric (b1 b2 : Booking) :
  b_start_time b1 <= b_end_time b1 ->
  b_start_time b2 <= b_end_time b2 ->
  conflict_window (b_start_time b1) (b_end_time b1) b2
  = conflict_window (b_start_time b2) (b_end_time b2) b1.
Proof.
  intros H1 H2. apply eq_true_iff_eq. rewrite !conflict_window_spec. lia.
Qed.

Lemma conflict_window_symmetric_witness :
  conflict_window (clock 10 0) (clock 11 0)
                  (held 2 1 (clock 10 30) (clock 10 45) "pending")
  = conflict_window (clock 10 30) (clock 10 45)
                    (held 1 1 (clock 10 0) (clock 11 0) "pending").
Proof.
  apply (conflict_window_symmetric (held 1 1 (clock 10 0) (clock 11 0) "pending")
           (held 2 1 (clock 10 30) (clock 10 45) "pending")).
  - vm_compute. discriminate.
  - vm_compute. discriminate.
Defined.

Lemma toFixed2_hundredths (c : Z) (x : Q) :
  (x == inject_Z c / 100)%Q -> toFixed2 x = c.
Proof.
  intros Hx. pose proof (toFixed2_near x) as [Hlo Hhi].
  unfold Qdiv in *. change (/ 100)%Q with (1 # 100)%Q in *.
  assert (H1 : (inject_Z (2 * c) <= inject_Z (2 * toFixed2 x + 1))%Q).
  { rewrite inject_Z_plus, !inject_Z_mult.
    change (inject_Z 2) with 2%Q. change (inject_Z 1) with 1%Q. lra. }
  assert (H2 : (inject_Z (2 * toFixed2 x) <= inject_Z (2 * c + 1))%Q).
  { rewrite inject_Z_plus, !inject_Z_mult.
    change (inject_Z 2) with 2%Q. change (inject_Z 1) with 1%Q. lra. }
  rewrite <- Zle_Qle in H1, H2. lia.
Qed.

(** For a whole number of hours and a rate in whole hundredths the cost is
    exact: hours times rate, with no rounding. *)
Theorem whole_hours_cost_exactly (start_time hours rate : Z) :
  totalCost start_time (start_time + hours * 3600000) (inject_Z rate / 100)
  = hours * rate.
Proof.
  unfold totalCost. apply toFixed2_hundredths.
  unfold durationHours.
  replace (start_time + hours * 3600000 - start_time) with (hours * 3600000) by lia.
  change (1000 * 60 * 60) with 3600000.
  rewrite !inject_Z_mult. field.
Qed.

(** * The other routes *)

(** ** PUT /bookings/:id/power *)

Lemma filter_nil {A} (p : A -> bool) (l : list A) :
  (forall x, In x l -> p x = false) -> filter p l = [].
Proof.
  intros Hnone. induction l as [|x l IH]; simpl; [reflexivity|].
  rewrite (Hnone x) by (left; reflexivity).
  apply IH. intros y Hin. apply Hnone. right. assumption.
Qed.

Lemma put_power_refuses (env : SiteEnv) (s : Site) (userId : string) (id power_kw : Z) :
  site_fault env QSelectActiveBooking = false ->
  filter (active_own userId id) (bookings (rows_of s)) = [] ->
  serve_route (put_power userId id power_kw) env s
  = (Some (mkReply 404 (PError "Active booking not found")), s).
Proof.
  intros Hselect Hnone.
  unfold serve_route, put_power, attempt, and_then, ask, finish.
  rewrite Hselect, Hnone. reflexivity.
Qed.

(** A reading is taken only for a booking that the caller owns and that is
    active.  For any other id -- unknown, someone else's, or the caller's
    own booking while pending, completed or cancelled -- the reply is 404
    and nothing is written: no reading, no log entry, no event. *)
Theorem power_reading_needs_active_own_booking (env : SiteEnv) (s : Site)
        (userId : string) (id power_kw : Z) :
  site_fault env QSelectActiveBooking = false ->
  (forall b, In b (bookings (rows_of s)) -> b_id b = id -> b_user_id b = userId ->
             b_status b <> "active") ->
  serve_route (put_power userId id power_kw) env s
  = (Some (mkReply 404 (PError "Active booking not found")), s).
Proof.
  intros Hselect Hnone. apply put_power_refuses; [assumption|].
  apply filter_nil. intros b Hin. unfold active_own.
  destruct (b_id b =? id) eqn:Hid; [|reflexivity].
  destruct (b_user_id b =? userId)%string eqn:Huser; [|reflexivity].
  apply Z.eqb_eq in Hid. apply String.eqb_eq in Huser.
  simpl. apply String.eqb_neq. now apply Hnone.
Qed.

Lemma power_reading_needs_active_own_booking_witness :
  let s := mkSite (world_of 2 [held 1 1 (clock 10 0) (clock 11 0) "pending"]) [] [] [] in
  serve_route (put_power "user_a" 1 7) (mkSiteEnv calm (fun _ => false)) s
  = (Some (mkReply 404 (PError "Active booking not found")), s).
Proof.
  intros s.
  apply (power_reading_needs_active_own_booking (mkSiteEnv calm (fun _ => false)) s
           "user_a" 1 7).
  - reflexivity.
  - intros b [<-|[]] _ _. discriminate.
Defined.

(** An accepted reading is written three times over: as the booking's
    [power_consumption], as one more power-log entry for the booking's
    station, and as one [powerUpdate] event in that station's room.  The
    bookings and stations rows are left as they were. *)
Theorem power_reading_is_recorded (env : SiteEnv) (s : Site) (userId : string)
        (id power_kw : Z) (b : Booking) (rest : list Booking) :
  (forall q, site_fault env q = false) ->
  emit_throws (base_env env) = false ->
  filter (active_own userId id) (bookings (rows_of s)) = b :: rest ->
  let out := serve_route (put_power userId id power_kw) env s in
  fst out = Some (mkReply 200 (PPower power_kw))
  /\ read_power id (snd out) = Some power_kw
  /\ power_logs (rows_of (snd out))
     = power_logs (rows_of s) ++ [mkPowerLog (b_station_id b) id power_kw]
  /\ power_sent (snd out)
     = power_sent s ++ [mkPowerEvent (b_station_id b) id (b_station_id b) power_kw]
  /\ bookings (rows_of (snd out)) = bookings (rows_of s)
  /\ stations (rows_of (snd out)) = stations (rows_of s)
  /\ emitted (world (snd out)) = emitted (world s).
Proof.
  intros Hcalm Hemit Hrows out. subst out.
  assert (Hexists : existsb (fun x => b_id x =? id) (bookings (rows_of s)) = true).
  { apply existsb_exists. exists b.
    assert (Hin : In b (filter (active_own userId id) (bookings (rows_of s))))
      by (rewrite Hrows; left; reflexivity).
    apply filter_In in Hin. destruct Hin as [Hin Hown]. split; [assumption|].
    unfold active_own in Hown. apply andb_true_iff in Hown. destruct Hown as [Hown _].
    apply andb_true_iff in Hown. tauto. }
  unfold serve_route, put_power, attempt, and_then, ask, exec, emit_power, finish.
  rewrite !Hcalm, Hrows. simpl. rewrite !Hcalm. simpl.
  unfold set_power. rewrite Hexists. simpl. rewrite Hemit. simpl.
  unfold read_power. simpl. rewrite Z.eqb_refl. simpl.
  repeat split; reflexivity.
Qed.

Lemma power_reading_is_recorded_witness :
  let b := held 1 1 (clock 10 0) (clock 11 0) "active" in
  let s := mkSite (world_of 2 [b]) [] [(1, 3)] [] in
  let out := serve_route (put_power "user_a" 1 7) (mkSiteEnv calm (fun _ => false)) s in
  fst out = Some (mkReply 200 (PPower 7))
  /\ read_power 1 (snd out) = Some 7
  /\ power_logs (rows_of (snd out)) = power_logs (rows_of s) ++ [mkPowerLog 1 1 7].
Proof.
  intros b s out.
  destruct (power_reading_is_recorded (mkSiteEnv calm (fun _ => false)) s "user_a" 1 7
              b []) as (Hreply & Hread & Hlogs & _).
  - intros q. reflexivity.
  - reflexivity.
  - reflexivity.
  - repeat split; assumption.
Defined.

Lemma on_world_rows (h : Handler unit) (env : SiteEnv) (s : Site) :
  rows_of (snd (serve_route (on_world h) env s))
  = tables (snd (run h (base_env env) (world s))).
Proof.
  unfold serve_route, on_world, run, rows_of.
  destruct (h (base_env env) (world s)) as [[a|r|] w']; reflexivity.
Qed.

Lemma closed_rows_not_active (userId : string) (id : Z) (p : Booking -> bool)
      (status : string) (bs : list Booking) :
  status <> "active" ->
  (forall b, active_own userId id b = true -> p b = true) ->
  filter (active_own userId id)
         (map (fun b => if p b then set_status status b else b) bs) = [].
Proof.
  intros Hstatus Hp. apply filter_nil. intros b' Hin.
  apply in_map_iff in Hin. destruct Hin as (b & <- & _).
  destruct (p b) eqn:Hpb.
  - unfold active_own. simpl. apply String.eqb_neq in Hstatus. rewrite Hstatus.
    apply andb_false_r.
  - destruct (active_own userId id b) eqn:Hown; [|reflexivity].
    rewrite (Hp b Hown) in Hpb. discriminate.
Qed.

(** No reading after the booking is closed.  Once its owner has cancelled a
    booking (DELETE), or set it to completed or cancelled (PUT status), a
    reading for it is answered 404, whatever the booking was before. *)
Theorem closed_booking_takes_no_reading (env1 env2 : SiteEnv) (s : Site)
        (userId : string) (id power_kw : Z) (h : Handler unit) :
  txn (world s) = None ->
  db_fault (base_env env1) QUpdateStatus = false ->
  site_fault env2 QSelectActiveBooking = false ->
  h = delete_booking userId id \/ h = put_status userId id "completed"
  \/ h = put_status userId id "cancelled" ->
  let s1 := snd (serve_route (on_world h) env1 s) in
  serve_route (put_power userId id power_kw) env2 s1
  = (Some (mkReply 404 (PError "Active booking not found")), s1).
Proof.
  intros Hidle Hupdate Hselect Hh s1.
  apply put_power_refuses; [assumption|].
  subst s1. rewrite on_world_rows.
  destruct Hh as [-> | [-> | ->]].
  - rewrite delete_booking_bookings by assumption.
    apply (closed_rows_not_active userId id (cancellable userId id) "cancelled");
      [discriminate|].
    intros b Hown. unfold active_own in Hown. unfold cancellable.
    apply andb_true_iff in Hown. destruct Hown as [Hown Hactive].
    rewrite Hown, Hactive. apply orb_true_r.
  - rewrite put_status_bookings by (assumption || reflexivity).
    apply (closed_rows_not_active userId id
             (fun b => (b_id b =? id) && (b_user_id b =? userId)%string) "completed");
      [discriminate|].
    intros b Hown. unfold active_own in Hown.
    apply andb_true_iff in Hown. tauto.
  - rewrite put_status_bookings by (assumption || reflexivity).
    apply (closed_rows_not_active userId id
             (fun b => (b_id b =? id) && (b_user_id b =? userId)%string) "cancelled");
      [discriminate|].
    intros b Hown. unfold active_own in Hown.
    apply andb_true_iff in Hown. tauto.
Qed.

Lemma closed_booking_takes_no_reading_witness :
  let s := mkSite (world_of 2 [held 1 1 (clock 10 0) (clock 11 0) "active"]) [] [] [] in
  let env := mkSiteEnv calm (fun _ => false) in
  let s1 := snd (serve_route (on_world (put_status "user_a" 1 "completed")) env s) in
  serve_route (put_power "user_a" 1 7) env s1
  = (Some (mkReply 404 (PError "Active booking not found")), s1).
Proof.
  intros s env.
  apply (closed_booking_takes_no_reading env env s "user_a" 1 7
           (put_status "user_a" 1 "completed")); try reflexivity.
  right. left. reflexivity.
Defined.

(** ** GET /bookings/my-bookings *)

Lemma insert_by_start_perm (r : Booking * Station) (rows : list (Booking * Station)) :
  Permutation (insert_by_start r rows) (r :: rows).
Proof.
  induction rows as [|r' rows IH]; simpl; [apply Permutation_refl|].
  destruct (b_start_time (fst r') <? b_start_time (fst r)).
  - apply Permutation_refl.
  - apply perm_trans with (r' :: r :: rows); [now apply perm_skip|apply perm_swap].
Qed.

Lemma order_by_start_desc_perm (rows : list (Booking * Station)) :
  Permutation (order_by_start_desc rows) rows.
Proof.
  induction rows as [|r rows IH]; simpl; [apply perm_nil|].
  apply perm_trans with (r :: order_by_start_desc rows);
    [apply insert_by_start_perm|now apply perm_skip].
Qed.

Lemma insert_by_start_sorted (r : Booking * Station) (rows : list (Booking * Station)) :
  StronglySorted (fun x y => b_start_time (fst y) <= b_start_time (fst x)) rows ->
  StronglySorted (fun x y => b_start_time (fst y) <= b_start_time (fst x))
                 (insert_by_start r rows).
Proof.
  intros Hsorted. induction Hsorted as [|r' rows Hsorted IH Hall]; simpl.
  - constructor; constructor.
  - destruct (b_start_time (fst r') <? b_start_time (fst r)) eqn:Hlt.
    + apply Z.ltb_lt in Hlt. constructor.
      * now constructor.
      * constructor; [lia|].
        eapply Forall_impl; [|exact Hall]. simpl. intros y Hy. lia.
    + apply Z.ltb_ge in Hlt. constructor; [assumption|].
      apply (Permutation_Forall (Permutation_sym (insert_by_start_perm r rows))).
      constructor; assumption.
Qed.

Lemma order_by_start_desc_sorted (rows : list (Booking * Station)) :
  StronglySorted (fun x y => b_start_time (fst y) <= b_start_time (fst x))
                 (order_by_start_desc rows).
Proof.
  induction rows as [|r rows IH]; simpl; [constructor|].
  now apply insert_by_start_sorted.
Qed.

Lemma in_join_stations (sts : list Station) (bs : list Booking) (b : Booking)
      (st : Station) :
  In (b, st) (join_stations sts bs)
  <-> In b bs /\ In st sts /\ st_id st = b_station_id b.
Proof.
  unfold join_stations. rewrite in_flat_map. split.
  - intros (b0 & Hb0 & Hin). apply in_map_iff in Hin.
    destruct Hin as (st0 & Heq & Hst0). injection Heq as -> ->.
    apply filter_In in Hst0. destruct Hst0 as [Hst0 Hid]. apply Z.eqb_eq in Hid.
    tauto.
  - intros (Hb & Hst & Hid). exists b. split; [assumption|].
    apply in_map, filter_In. split; [assumption|]. now apply Z.eqb_eq.
Qed.

(** The caller gets his or her own bookings and no others: each booking of
    the caller appears once with each station row of its station id (so a
    booking whose station has no row is left out), nothing of another user
    appears, the rows come latest start first, and nothing is written. *)
Theorem my_bookings_are_own_latest_first (env : SiteEnv) (s : Site) (userId : string) :
  site_fault env QSelectMine = false ->
  exists rows,
    serve_route (my_bookings userId) env s = (Some (mkReply 200 (PRows rows)), s)
    /\ Permutation rows
         (join_stations (stations (rows_of s))
            (filter (fun b => (b_user_id b =? userId)%string) (bookings (rows_of s))))
    /\ (forall b st,
           In (b, st) rows
           <-> In b (bookings (rows_of s)) /\ b_user_id b = userId
               /\ In st (stations (rows_of s)) /\ st_id st = b_station_id b)
    /\ StronglySorted (fun x y => b_start_time (fst y) <= b_start_time (fst x)) rows.
Proof.
  intros Hselect.
  exists (order_by_start_desc
            (join_stations (stations (rows_of s))
               (filter (fun b => (b_user_id b =? userId)%string)
                       (bookings (rows_of s))))).
  split; [|split; [|split]].
  - unfold serve_route, my_bookings, attempt, and_then, ask, finish.
    rewrite Hselect. reflexivity.
  - apply order_by_start_desc_perm.
  - intros b st. split.
    + intros Hin.
      apply (Permutation_in _ (order_by_start_desc_perm _)) in Hin.
      apply in_join_stations in Hin. destruct Hin as (Hb & Hst & Hid).
      apply filter_In in Hb. destruct Hb as [Hb Huser].
      apply String.eqb_eq in Huser. tauto.
    + intros (Hb & Huser & Hst & Hid).
      apply (Permutation_in _ (Permutation_sym (order_by_start_desc_perm _))).
      apply in_join_stations. split; [|tauto].
      apply filter_In. split; [assumption|]. now apply String.eqb_eq.
  - apply order_by_start_desc_sorted.
Qed.

Lemma my_bookings_are_own_latest_first_witness :
  let mine1 := held 1 1 (clock 9 0) (clock 10 0) "completed" in
  let other := mkBooking 2 1 "user_b" (Some 2) (clock 10 0) (clock 11 0) 2500 "pending" in
  let mine2 := held 3 2 (clock 12 0) (clock 13 0) "pending" in
  let s := mkSite (world_of 2 [mine1; other; mine2]) [] [] [] in
  exists rows,
    serve_route (my_bookings "user_a") (mkSiteEnv calm (fun _ => false)) s
    = (Some (mkReply 200 (PRows rows)), s)
    /\ StronglySorted (fun x y => b_start_time (fst y) <= b_start_time (fst x)) rows.
Proof.
  intros mine1 other mine2 s.
  destruct (my_bookings_are_own_latest_first (mkSiteEnv calm (fun _ => false)) s "user_a"
              eq_refl) as (rows & Hreply & _ & _ & Hsorted).
  exists rows. split; assumption.
Defined.

(** ** requireAdmin *)

(** The admin routes are closed to everyone else.  A caller with no users
    row, or whose rows all carry a role other than admin, is answered 403
    by the middleware, whatever route stands behind it, and nothing is
    changed; a caller whose first row says admin gets the route itself. *)
Theorem admin_routes_need_admin_role (env : SiteEnv) (s : Site) (userId : string)
        (next : Route unit) :
  site_fault env QSelectRole = false ->
  ((forall u, In u (users s) -> clerk_id u = userId -> role u <> "admin") ->
   serve_route (require_admin userId next) env s
   = (Some (mkReply 403 (PError "Admin access required")), s))
  /\ (forall rest,
         map role (filter (fun u => (clerk_id u =? userId)%string) (users s))
         = "admin" :: rest ->
         serve_route (require_admin userId next) env s = serve_route next env s).
Proof.
  intros Hselect.
  unfold serve_route, require_admin, attempt, and_then, ask, finish, give.
  rewrite Hselect. split.
  - intros Hnone.
    destruct (map role (filter (fun u => (clerk_id u =? userId)%string) (users s)))
      as [|r rest] eqn:Hrows; [reflexivity|].
    assert (Hin : In r (map role (filter (fun u => (clerk_id u =? userId)%string)
                                         (users s))))
      by (rewrite Hrows; left; reflexivity).
    apply in_map_iff in Hin. destruct Hin as (u & Hrole & Hu).
    apply filter_In in Hu. destruct Hu as [Hu Hid]. apply String.eqb_eq in Hid.
    pose proof (Hnone u Hu Hid) as Hne. rewrite Hrole in Hne.
    apply String.eqb_neq in Hne. rewrite Hne. reflexivity.
  - intros rest Hrows. rewrite Hrows. simpl.
    destruct (next env s) as [[a|r|] s']; reflexivity.
Qed.

Lemma admin_routes_need_admin_role_witness :
  let s := mkSite (world_of 2 [held 1 1 (clock 10 0) (clock 11 0) "pending"])
                  [mkUser "user_a" "user"; mkUser "root" "admin"] [] [] in
  let env := mkSiteEnv calm (fun _ => false) in
  serve_route (require_admin "user_a" (on_world (admin_put_status 1 "active"))) env s
  = (Some (mkReply 403 (PError "Admin access required")), s)
  /\ serve_route (require_admin "root" (on_world (admin_put_status 1 "active"))) env s
     = serve_route (on_world (admin_put_status 1 "active")) env s.
Proof.
  intros s env. split.
  - apply (admin_routes_need_admin_role env s "user_a"
             (on_world (admin_put_status 1 "active")) eq_refl).
    intros u [<-|[<-|[]]]; simpl; intros; discriminate.
  - apply (proj2 (admin_routes_need_admin_role env s "root"
                    (on_world (admin_put_status 1 "active")) eq_refl) []).
    reflexivity.
Defined.

(** ** DELETE /admin/stations/:id *)

(** A station with an active booking is not deleted: the reply is 400 and
    nothing is changed, whether or not the station exists. *)
Theorem station_with_active_booking_is_kept (env : SiteEnv) (s : Site) (id : Z)
        (b : Booking) :
  site_fault env QCountActive = false ->
  In b (bookings (rows_of s)) ->
  b_station_id b = id ->
  b_status b = "active" ->
  serve_route (admin_delete_station id) env s
  = (Some (mkReply 400 (PError "Cannot delete station with active bookings")), s).
Proof.
  intros Hcount Hin Hid Hactive.
  unfold serve_route, admin_delete_station, attempt, and_then, ask, finish.
  rewrite Hcount.
  assert (Hlen : (Z.of_nat
                    (List.length
                       (filter (fun b0 => (b_station_id b0 =? id)
                                          && (b_status b0 =? "active")%string)
                               (bookings (rows_of s)))) >? 0) = true).
  { assert (Hb : In b (filter (fun b0 => (b_station_id b0 =? id)
                                         && (b_status b0 =? "active")%string)
                              (bookings (rows_of s)))).
    { apply filter_In. split; [assumption|].
      rewrite Hid, Hactive, Z.eqb_refl. reflexivity. }
    destruct (filter _ (bookings (rows_of s))); [destruct Hb|].
    simpl. apply Z.gtb_lt. lia. }
  rewrite Hlen. reflexivity.
Qed.

Lemma station_with_active_booking_is_kept_witness :
  let s := mkSite (world_of 2 [held 1 1 (clock 10 0) (clock 11 0) "active"]) [] [] [] in
  serve_route (admin_delete_station 1) (mkSiteEnv calm (fun _ => false)) s
  = (Some (mkReply 400 (PError "Cannot delete station with active bookings")), s).
Proof.
  intros s.
  apply (station_with_active_booking_is_kept (mkSiteEnv calm (fun _ => false)) s 1
           (held 1 1 (clock 10 0) (clock 11 0) "active")).
  - reflexivity.
  - left. reflexivity.
  - reflexivity.
  - reflexivity.
Defined.

Lemma find_station_removed (id : Z) (d : Database) :
  find_station id (remove_station id d) = [].
Proof.
  unfold find_station, remove_station. simpl.
  apply filter_nil. intros st Hin. apply filter_In in Hin.
  destruct Hin as [_ Hne]. apply negb_true_iff in Hne. rewrite Hne. reflexivity.
Qed.

(** Only active bookings stand in the way of a deletion, and a deleted
    station takes no bookings.  With no active booking on it, and no query
    failing, the station's rows are removed and all other stations kept
    (pending bookings do not block the deletion); afterwards every POST
    /bookings for that station id is answered 404. *)
Theorem deleted_station_takes_no_booking (env : SiteEnv) (benv : Env) (s : Site)
        (id start_time end_time : Z) (userId : string) (slot : JsValue) :
  site_fault env QCountActive = false ->
  site_fault env QDeleteStation = false ->
  (forall b, In b (bookings (rows_of s)) -> b_station_id b = id ->
             b_status b <> "active") ->
  txn (world s) = None ->
  db_fault benv QBegin = false ->
  db_fault benv QSelectStation = false ->
  id <> 0 ->
  let s1 := snd (serve_route (admin_delete_station id) env s) in
  stations (rows_of s1) = filter (fun st => negb (st_id st =? id)) (stations (rows_of s))
  /\ run (post_booking userId
            (mkRequest (Some id) (Some start_time) (Some end_time) slot))
         benv (world s1)
     = (Some (mkResponse 404 (ErrorBody "Station not found or inactive")), world s1).
Proof.
  intros Hcount Hdelete Hnone Hidle Hbegin Hselect Hid s1.
  assert (Hs1 : s1 = with_tables (remove_station id (rows_of s)) s).
  { subst s1.
    unfold serve_route, admin_delete_station, attempt, and_then, ask, exec, finish.
    rewrite Hcount.
    rewrite (filter_nil (fun b => (b_station_id b =? id)
                                  && (b_status b =? "active")%string)).
    - simpl. rewrite Hdelete.
      destruct (filter (fun st => st_id st =? id) (stations (rows_of s))); reflexivity.
    - intros b Hin. destruct (b_station_id b =? id) eqn:Hb; [|reflexivity].
      apply Z.eqb_eq in Hb. simpl. apply String.eqb_neq. now apply Hnone. }
  rewrite Hs1. split; [reflexivity|].
  apply Z.eqb_neq in Hid.
  destruct s as [[d t n ev] us pc ps]. simpl in Hidle. subst t.
  unfold with_tables, with_world, rows_of. simpl.
  unfold_handler. rewrite Hid, Hbegin. simpl. rewrite Hselect. simpl.
  rewrite (find_station_removed id d). reflexivity.
Qed.

Lemma deleted_station_takes_no_booking_witness :
  let s := mkSite (world_of 2 [held 1 1 (clock 10 0) (clock 11 0) "pending"]) [] [] [] in
  let s1 := snd (serve_route (admin_delete_station 1)
                             (mkSiteEnv calm (fun _ => false)) s) in
  stations (rows_of s1) = []
  /\ run (post_booking "user_b" (request (clock 12 0) (clock 13 0) JsUndefined))
         calm (world s1)
     = (Some (mkResponse 404 (ErrorBody "Station not found or inactive")), world s1).
Proof.
  intros s.
  apply (deleted_station_takes_no_booking (mkSiteEnv calm (fun _ => false)) calm s 1
           (clock 12 0) (clock 13 0) "user_b" JsUndefined); try reflexivity.
  - intros b [<-|[]] _. discriminate.
  - discriminate.
Defined.

(** ** GET /stations/:id/availability *)

Lemma availability_found (env : SiteEnv) (s : Site) (id day n : Z) (rest : list Z) :
  site_fault env QSelectTotalSlots = false ->
  site_fault env QSelectDay = false ->
  map total_slots (filter (fun st => st_id st =? id) (stations (rows_of s))) = n :: rest ->
  serve_route (availability id (Some day)) env s
  = (Some (mkReply 200 (PSlots (time_slots n (day_rows id day (bookings (rows_of s)))))),
     s).
Proof.
  intros Htotal Hday Hrows.
  unfold serve_route, availability, attempt, and_then, ask, finish.
  rewrite Htotal, Hrows, Hday. reflexivity.
Qed.

Lemma slot_at_bounds (n : Z) (rows : list Booking) (hour : nat) :
  0 <= ts_available_slots (slot_at n rows hour)
  /\ (0 <= n -> ts_available_slots (slot_at n rows hour) <= n)
  /\ (ts_is_available (slot_at n rows hour) = true
      <-> 0 < ts_available_slots (slot_at n rows hour)).
Proof.
  unfold slot_at. simpl.
  set (taken := Z.of_nat (List.length (filter (covers_hour hour) rows))).
  assert (0 <= taken) by (unfold taken; lia).
  rewrite Z.gtb_lt. lia.
Qed.

(** The availability of a station for a day is a list of 24 entries, one
    for each hour from 00:00 to 23:00 in order.  No entry reports a negative
    number of slots, none reports more than the station's [total_slots],
    and an hour is marked available exactly when its number is positive. *)
Theorem availability_has_24_bounded_slots (env : SiteEnv) (s : Site) (id day n : Z)
        (rest : list Z) :
  site_fault env QSelectTotalSlots = false ->
  site_fault env QSelectDay = false ->
  map total_slots (filter (fun st => st_id st =? id) (stations (rows_of s))) = n :: rest ->
  exists slots,
    serve_route (availability id (Some day)) env s
    = (Some (mkReply 200 (PSlots slots)), s)
    /\ map ts_time slots
       = ["00:00"; "01:00"; "02:00"; "03:00"; "04:00"; "05:00"; "06:00"; "07:00";
          "08:00"; "09:00"; "10:00"; "11:00"; "12:00"; "13:00"; "14:00"; "15:00";
          "16:00"; "17:00"; "18:00"; "19:00"; "20:00"; "21:00"; "22:00"; "23:00"]
    /\ Forall (fun ts => 0 <= ts_available_slots ts
                         /\ (0 <= n -> ts_available_slots ts <= n)
                         /\ (ts_is_available ts = true <-> 0 < ts_available_slots ts))
              slots.
Proof.
  intros Htotal Hday Hrows.
  exists (time_slots n (day_rows id day (bookings (rows_of s)))).
  split; [now apply (availability_found env s id day n rest)|]. split.
  - unfold time_slots. rewrite map_map. reflexivity.
  - unfold time_slots. apply Forall_map, Forall_forall.
    intros hour _. apply slot_at_bounds.
Qed.

Lemma availability_has_24_bounded_slots_witness :
  let s := mkSite (world_of 2 [held 1 1 (clock 10 0) (clock 12 0) "pending"]) [] [] [] in
  exists slots,
    serve_route (availability 1 (Some 0)) (mkSiteEnv calm (fun _ => false)) s
    = (Some (mkReply 200 (PSlots slots)), s)
    /\ List.length (map ts_time slots) = 24%nat.
Proof.
  intros s.
  destruct (availability_has_24_bounded_slots (mkSiteEnv calm (fun _ => false)) s 1 0 2 [])
    as (slots & Hreply & Htimes & _); try reflexivity.
  exists slots. split; [assumption|]. rewrite Htimes. reflexivity.
Defined.

Lemma covers_hour_needs_later_end (hour : nat) (b : Booking) :
  hours_of (b_end_time b) <= hours_of (b_start_time b) ->
  covers_hour hour b = false.
Proof.
  intros Hb. unfold covers_hour.
  destruct (hours_of (b_start_time b) <=? Z.of_nat hour) eqn:Hstart; [|reflexivity].
  apply Z.leb_le in Hstart. simpl. apply Z.ltb_ge. lia.
Qed.

Lemma time_slots_blind (n : Z) (rows : list Booking) (b : Booking) :
  hours_of (b_end_time b) <= hours_of (b_start_time b) ->
  time_slots n (rows ++ [b]) = time_slots n rows.
Proof.
  intros Hb. unfold time_slots. apply map_ext. intros hour.
  unfold slot_at. rewrite filter_app. simpl.
  rewrite (covers_hour_needs_later_end hour b Hb), app_nil_r. reflexivity.
Qed.

(** The availability does not see a booking whose end falls in the same
    clock hour as its start, or in an earlier one: a booking from 10:00 to
    10:45, or from 23:00 to 01:00 the next day, takes no hour of the day,
    and the reply is the same with it as without it. *)
Theorem booking_within_a_clock_hour_is_not_shown (env : SiteEnv) (s : Site)
        (id : Z) (date : option Z) (b : Booking) :
  hours_of (b_end_time b) <= hours_of (b_start_time b) ->
  fst (serve_route (availability id date) env
                   (with_tables (add_booking b (rows_of s)) s))
  = fst (serve_route (availability id date) env s).
Proof.
  intros Hb.
  unfold serve_route, availability, attempt, and_then, ask, finish.
  destruct date as [day|]; [|reflexivity].
  destruct (site_fault env QSelectTotalSlots); [reflexivity|].
  unfold with_tables, with_world, rows_of. simpl.
  destruct (map total_slots (filter (fun st => st_id st =? id)
                                    (stations (tables (world s)))))
    as [|n rest]; [reflexivity|].
  destruct (site_fault env QSelectDay); [reflexivity|]. simpl.
  unfold day_rows. rewrite filter_app. simpl.
  destruct ((b_station_id b =? id) && (day_of (b_start_time b) =? day) && holds_slot b).
  - rewrite (time_slots_blind n _ b Hb). reflexivity.
  - rewrite app_nil_r. reflexivity.
Qed.

Lemma booking_within_a_clock_hour_is_not_shown_witness :
  let s := mkSite (world_of 1 []) [] [] [] in
  let b := held 1 1 (clock 10 0) (clock 10 45) "active" in
  fst (serve_route (availability 1 (Some 0)) (mkSiteEnv calm (fun _ => false))
                   (with_tables (add_booking b (rows_of s)) s))
  = fst (serve_route (availability 1 (Some 0)) (mkSiteEnv calm (fun _ => false)) s).
Proof.
  intros s b.
  apply (booking_within_a_clock_hour_is_not_shown (mkSiteEnv calm (fun _ => false)) s 1
           (Some 0) b).
  vm_compute. discriminate.
Defined.

(** Availability is reported for stations that cannot be booked: the route
    does not look at the station's status, so for a station whose rows are
    all inactive it answers with the 24 hours while POST /bookings answers
    404. *)
Theorem availability_ignores_station_status (env : SiteEnv) (benv : Env) (s : Site)
        (st : Station) (day start_time end_time : Z) (userId : string) (slot : JsValue) :
  site_fault env QSelectTotalSlots = false ->
  site_fault env QSelectDay = false ->
  txn (world s) = None ->
  db_fault benv QBegin = false ->
  db_fault benv QSelectStation = false ->
  st_id st <> 0 ->
  In st (stations (rows_of s)) ->
  (forall st', In st' (stations (rows_of s)) -> st_id st' = st_id st ->
               st_status st' <> "active") ->
  (exists slots,
      serve_route (availability (st_id st) (Some day)) env s
      = (Some (mkReply 200 (PSlots slots)), s))
  /\ run (post_booking userId
            (mkRequest (Some (st_id st)) (Some start_time) (Some end_time) slot))
         benv (world s)
     = (Some (mkResponse 404 (ErrorBody "Station not found or inactive")), world s).
Proof.
  intros Htotal Hday Hidle Hbegin Hselect Hid Hin Hinactive. split.
  - destruct (map total_slots (filter (fun st' => st_id st' =? st_id st)
                                      (stations (rows_of s))))
      as [|n rest] eqn:Hrows.
    + exfalso.
      assert (Hst : In (total_slots st)
                       (map total_slots (filter (fun st' => st_id st' =? st_id st)
                                                (stations (rows_of s))))).
      { apply in_map, filter_In. split; [assumption|apply Z.eqb_refl]. }
      rewrite Hrows in Hst. destruct Hst.
    + eexists. now apply (availability_found env s (st_id st) day n rest).
  - apply find_station_none in Hinactive. apply Z.eqb_neq in Hid.
    destruct s as [[d t n ev] us pc ps]. simpl in Hidle. subst t.
    unfold rows_of in Hinactive. simpl in Hinactive. simpl.
    unfold_handler. rewrite Hid, Hbegin. simpl. rewrite Hselect. simpl.
    rewrite Hinactive. reflexivity.
Qed.

Lemma availability_ignores_station_status_witness :
  let st := mkStation 1 4 25 "inactive" in
  let s := mkSite (mkWorld (mkDatabase [st] [] []) None 0 []) [] [] [] in
  (exists slots,
      serve_route (availability 1 (Some 0)) (mkSiteEnv calm (fun _ => false)) s
      = (Some (mkReply 200 (PSlots slots)), s))
  /\ run (post_booking "user_b" (request (clock 10 0) (clock 11 0) JsUndefined))
         calm (world s)
     = (Some (mkResponse 404 (ErrorBody "Station not found or inactive")), world s).
Proof.
  intros st s.
  apply (availability_ignores_station_status (mkSiteEnv calm (fun _ => false)) calm s st 0
           (clock 10 0) (clock 11 0) "user_b" JsUndefined); try reflexivity.
  - discriminate.
  - left. reflexivity.
  - intros st' [<-|[]] _. discriminate.
Defined.

(** ** GET /admin/bookings: the statements *)

(** The listing statement never has a placeholder for each of its
    parameters.  Only the status filter is written as a placeholder; the
    station and date filters and LIMIT and OFFSET get the bare counter in the
    text while their values go to the parameter array.  So the text holds
    one placeholder when a status is given and none otherwise, the array
    holds one value for each filter given and two more, and the counting
    statement holds no placeholder at all for one value per filter. *)
Theorem listing_placeholders_fall_short (status station_id date_from date_to : JsValue)
        (page limit : Z) :
  let listing := admin_bookings_query status station_id date_from date_to page limit in
  let counting := admin_bookings_count_query status station_id date_from date_to in
  placeholders (fst listing) = (if truthy status then 1 else 0)%nat
  /\ List.length (snd listing)
     = (filters_given status station_id date_from date_to + 2)%nat
  /\ (placeholders (fst listing) < List.length (snd listing))%nat
  /\ placeholders (fst counting) = 0%nat
  /\ List.length (snd counting) = filters_given status station_id date_from date_to.
Proof.
  unfold admin_bookings_query, admin_bookings_count_query, push_filter, filters_given.
  destruct (truthy status), (truthy station_id), (truthy date_from), (truthy date_to);
    cbn -[Nat.ltb]; repeat split; try reflexivity; lia.
Qed.

(** No value sent by the caller is written into the text of the listing
    statement: the text depends only on which of the four filters are
    present, not on their values, nor on the page and the limit asked for
    -- the LIMIT and OFFSET in the text are the counter values. *)
Theorem listing_text_ignores_values (status station_id date_from date_to : JsValue)
        (status' station_id' date_from' date_to' : JsValue) (page limit page' limit' : Z) :
  truthy status = truthy status' ->
  truthy station_id = truthy station_id' ->
  truthy date_from = truthy date_from' ->
  truthy date_to = truthy date_to' ->
  fst (admin_bookings_query status station_id date_from date_to page limit)
  = fst (admin_bookings_query status' station_id' date_from' date_to' page' limit').
Proof.
  intros H1 H2 H3 H4.
  unfold admin_bookings_query, push_filter.
  rewrite <- H1, <- H2, <- H3, <- H4.
  destruct (truthy status), (truthy station_id), (truthy date_from), (truthy date_to);
    reflexivity.
Qed.

Lemma listing_text_ignores_values_witness :
  fst (admin_bookings_query (JsString "active") JsUndefined JsUndefined JsUndefined 1 50)
  = fst (admin_bookings_query (JsString "x' OR 1=1") JsNull (JsString "") JsUndefined
                              7 1000).
Proof.
  apply (listing_text_ignores_values (JsString "active") JsUndefined JsUndefined
           JsUndefined (JsString "x' OR 1=1") JsNull (JsString "") JsUndefined
           1 50 7 1000); reflexivity.
Defined.

Example listing_without_filters :
  admin_bookings_query JsUndefined JsUndefined JsUndefined JsUndefined 3 20
  = ((bookings_query_head ++ " ORDER BY b.created_at DESC LIMIT 1 OFFSET 2")%string,
     [JsNumber 20; JsNumber 40]).
Proof.
  reflexivity.
Qed.

(** The power route writes in steps that are not undone.  When the reading
    has been stored with the booking and the INSERT into the power log then
    fails, the reply is 500, and the booking keeps the new reading with no
    log entry and no event for it. *)
Theorem power_reading_is_not_atomic (env : SiteEnv) (s : Site) (userId : string)
        (id power_kw : Z) (b : Booking) (rest : list Booking) :
  site_fault env QSelectActiveBooking = false ->
  site_fault env QUpdatePower = false ->
  site_fault env QInsertReading = true ->
  filter (active_own userId id) (bookings (rows_of s)) = b :: rest ->
  let out := serve_route (put_power userId id power_kw) env s in
  fst out = Some (mkReply 500 (PError "Failed to update power consumption"))
  /\ read_power id (snd out) = Some power_kw
  /\ rows_of (snd out) = rows_of s
  /\ power_sent (snd out) = power_sent s.
Proof.
  intros Hselect Hupdate Hinsert Hrows out. subst out.
  assert (Hexists : existsb (fun x => b_id x =? id) (bookings (rows_of s)) = true).
  { apply existsb_exists. exists b.
    assert (Hin : In b (filter (active_own userId id) (bookings (rows_of s))))
      by (rewrite Hrows; left; reflexivity).
    apply filter_In in Hin. destruct Hin as [Hin Hown]. split; [assumption|].
    unfold active_own in Hown. apply andb_true_iff in Hown. destruct Hown as [Hown _].
    apply andb_true_iff in Hown. tauto. }
  unfold serve_route, put_power, attempt, and_then, ask, exec, emit_power, finish.
  rewrite Hselect, Hrows. simpl. rewrite Hupdate. simpl. rewrite Hinsert. simpl.
  unfold set_power. rewrite Hexists. simpl.
  unfold read_power. simpl. rewrite Z.eqb_refl. simpl.
  repeat split; reflexivity.
Qed.

Lemma power_reading_is_not_atomic_witness :
  let b := held 1 1 (clock 10 0) (clock 11 0) "active" in
  let s := mkSite (world_of 2 [b]) [] [] [] in
  let env := mkSiteEnv calm (fun q => match q with QInsertReading => true | _ => false end) in
  let out := serve_route (put_power "user_a" 1 7) env s in
  fst out = Some (mkReply 500 (PError "Failed to update power consumption"))
  /\ read_power 1 (snd out) = Some 7
  /\ rows_of (snd out) = rows_of s
  /\ power_sent (snd out) = power_sent s.
Proof.
  intros b s env.
  apply (power_reading_is_not_atomic env s "user_a" 1 7 b []); reflexivity.
Defined.
